(** * webpush-fcm-relay: the ingestion pipeline of [webpush-fcm-relay.go]

    A shallow embedding of the relay's request handler and of the helpers it
    calls ([encode85], [parseKeyValues], [encodedValue]), together with the
    properties of the specification that they decide.

    The definitions follow [webpush-fcm-relay.go], function by function.  The
    repository has a second version of that file, which talks to the HTTP v1
    API of FCM; its helpers are the same, and its handler is the module
    [Messaging] below.  The functions of Go's standard library that the code
    calls ([strings.Split], [strings.FieldsFunc], [strings.Join],
    [strconv.Atoi], [base64.RawURLEncoding.DecodeString], [Header.Get],
    [binary.BigEndian.Uint32]) are written after their documented behaviour.

    Conventions.
    - A Go [string] is a sequence of bytes: Rocq's [string] (a list of 8-bit
      [ascii]).  A Go [[]byte] is a [list byte].
    - Go's [int] and [uint] are 64 bits wide (the Dockerfile builds for a 64-bit
      target); a [uint32] is 32 bits wide.  They are integers in [Z] with the
      wrap-around written where an operation can leave the range.
    - A run-time panic (index out of range, slice bounds out of range,
      assignment to an entry of a nil map) is the outcome [None]: the
      goroutine that serves the request stops, and no response is written.
    - A Go [map[string]string] is a [gmap string string].
    - The send [messageChan <- message] is the outcome [Queued message]: the
      channel and the workers that read it are not part of the embedding. *)

From Stdlib Require Import ZArith Lia.
From Stdlib.Strings Require Import Byte Ascii.
From stdpp Require Import gmap strings list.

Local Open Scope string_scope.
Local Open Scope list_scope.
Local Open Scope Z_scope.

(** ** Machine integers *)

Module GoInt.

(** [uint32(z)]: reduction modulo 2^32. *)
Definition uint32 (z : Z) : Z := z mod 2 ^ 32.

(** [uint(z)]: reduction modulo 2^64. *)
Definition uint (z : Z) : Z := z mod 2 ^ 64.

(** [int(z)]: two's complement wrap-around into [-2^63, 2^63). *)
Definition int (z : Z) : Z := (z + 2 ^ 63) mod 2 ^ 64 - 2 ^ 63.

Definition minInt : Z := - 2 ^ 63.
Definition maxInt : Z := 2 ^ 63 - 1.

(** The numeric value of a byte, as [uint32(b)] or [int(b)] give it. *)
Definition of_byte (b : byte) : Z := Z.of_N (Byte.to_N b).

End GoInt.

(** ** Slices and loops *)

(** [for i := 0; i < n; i++ { body }] over a loop state [S]; the call
    [for_loop n 0 body s] runs the [n] iterations, and stops at the first
    iteration that panics. *)
Fixpoint for_loop {S : Type} (n : nat) (i : Z) (body : Z → S → option S) (s : S)
  : option S :=
  match n with
  | O => Some s
  | Datatypes.S n' => s' ← body i s; for_loop n' (i + 1) body s'
  end.

(** A slice into a backing array: [dest] below is a window of [encodedBytes]
    that starts at offset [off]; a write through the window is a write to the
    array.  [slice_set mem off k x] is [dest[k] = x]. *)
Definition slice_set (mem : list byte) (off : nat) (k : Z) (x : byte)
  : option (list byte) :=
  if decide ((0 ≤ k)%Z ∧ (off + Z.to_nat k < length mem)%nat)
  then Some (<[(off + Z.to_nat k)%nat := x]> mem)
  else None.

(** [dest = dest[k:]] on a window: the new offset. *)
Definition slice_from (mem : list byte) (off : nat) (k : nat) : option nat :=
  if decide (off + k ≤ length mem)%nat then Some (off + k)%nat else None.

(** [src[i]] with an [int] index. *)
Definition index {A} (l : list A) (i : Z) : option A :=
  if decide (0 ≤ i) then l !! Z.to_nat i else None.

(** [src = src[k:]] on a slice that is only read. *)
Definition reslice {A} (l : list A) (k : nat) : option (list A) :=
  if decide (k ≤ length l)%nat then Some (drop k l) else None.

(** ** The encoder *)

(** [binary.BigEndian.Uint32]. *)
Definition BigEndian_Uint32 (b : list byte) : option Z :=
  b3 ← b !! 3%nat;
  b2 ← b !! 2%nat;
  b1 ← b !! 1%nat;
  b0 ← b !! 0%nat;
  Some (Z.lor (Z.lor (Z.lor (GoInt.of_byte b3)
                            (GoInt.uint32 (Z.shiftl (GoInt.of_byte b2) 8)))
                     (GoInt.uint32 (Z.shiftl (GoInt.of_byte b1) 16)))
              (GoInt.uint32 (Z.shiftl (GoInt.of_byte b0) 24))).

Definition z85digits : list byte :=
  String.list_byte_of_string
    "0123456789abcdefghijklmnopqrstuvwxyzABCDEFGHIJKLMNOPQRSTUVWXYZ.-:+=^!/*?&<>()[]{}@%$#".

(** The body of both digit loops:
    [dest[last-i] = z85digits[value%85]; value /= 85].
    The block loop works on a [uint32] ([Z.modulo], [Z.div]), the suffix loop
    on an [int] (Go's truncated [Z.rem], [Z.quot]). *)
Definition digit_step (md dv : Z → Z → Z) (dest : nat) (last : Z)
    (i : Z) (st : Z * list byte) : option (Z * list byte) :=
  let '(value, mem) := st in
  d ← index z85digits (md value 85);
  mem' ← slice_set mem dest (last - i) d;
  Some (dv value 85, mem').

(** One iteration of the block loop. *)
Definition block_step (block : Z) (st : list byte * nat * list byte)
  : option (list byte * nat * list byte) :=
  let '(src, dest, mem) := st in
  value ← BigEndian_Uint32 src;
  '(_, mem') ← for_loop 5 0 (digit_step Z.modulo Z.div dest 4) (value, mem);
  src' ← reslice src 4;
  dest' ← slice_from mem' dest 5;
  Some (src', dest', mem').

(** One iteration of the loop that accumulates the suffix:
    [value *= 256; value |= int(src[i])]. *)
Definition suffix_step (src : list byte) (i : Z) (value : Z) : option Z :=
  b ← index src i;
  Some (Z.lor (GoInt.int (value * 256)) (GoInt.of_byte b)).

Definition encode85 (bytes : list byte) : option string :=
  let len := Z.of_nat (length bytes) in
  let numBlocks := Z.quot len 4 in
  let suffixLength := Z.rem len 4 in
  let encodedLength := numBlocks * 5 in
  let encodedLength :=
    if decide (suffixLength ≠ 0) then encodedLength + (suffixLength + 1)
    else encodedLength in
  let encodedBytes := replicate (Z.to_nat encodedLength) x00 in
  '(src, dest, mem) ← for_loop (Z.to_nat numBlocks) 0 block_step
                         (bytes, 0%nat, encodedBytes);
  mem' ← (if decide (suffixLength ≠ 0) then
            value ← for_loop (Z.to_nat suffixLength) 0 (suffix_step src) 0;
            '(_, mem') ← for_loop (Z.to_nat (suffixLength + 1)) 0
                            (digit_step Z.rem Z.quot dest suffixLength)
                            (value, mem);
            Some mem'
          else Some mem);
  Some (String.string_of_list_byte mem').

(** ** The encoder as the specification words it

    Written from the specification's description of the encoding, to be
    compared with [encode85]: blocks of four bytes read as big-endian numbers
    and written as five base-85 digits, most significant first; a remainder
    of one to three bytes read big-endian and written as one digit more than
    it has bytes. *)

Module Reference.

(** The fixed alphabet of 85 characters; the order is significant. *)
Definition alphabet : string :=
  "0123456789abcdefghijklmnopqrstuvwxyzABCDEFGHIJKLMNOPQRSTUVWXYZ.-:+=^!/*?&<>()[]{}@%$#".

(** The character of a base-85 digit. *)
Definition digit_char (d : Z) : ascii :=
  default "0"%char (String.get (Z.to_nat d) alphabet).

(** The [n] low base-85 digits of [v], most significant digit first. *)
Fixpoint digits (n : nat) (v : Z) : string :=
  match n with
  | O => ""
  | S n' => String (digit_char ((v / 85 ^ Z.of_nat n') mod 85)) (digits n' v)
  end.

(** The number a byte sequence denotes, most significant byte first. *)
Definition big_endian (bs : list byte) : Z :=
  fold_left (λ acc b, acc * 256 + GoInt.of_byte b) bs 0.

Fixpoint encode (bs : list byte) : string :=
  match bs with
  | [] => ""
  | b0 :: b1 :: b2 :: b3 :: rest =>
      digits 5 (big_endian [b0; b1; b2; b3]) +:+ encode rest
  | _ => digits (S (length bs)) (big_endian bs)
  end.

End Reference.

(** ** Go's [strings] package, on byte strings *)

Module GoStrings.

(** Whether the byte [c] occurs in [s]. *)
Fixpoint has_byte (c : ascii) (s : string) : bool :=
  match s with
  | EmptyString => false
  | String c' s' => bool_decide (c = c') || has_byte c s'
  end.

(** The pieces of [s] between the bytes that satisfy [f]; a string with [n]
    such bytes has [n + 1] pieces, some of which may be empty. *)
Fixpoint pieces (f : ascii → bool) (s : string) : list string :=
  match s with
  | EmptyString => [EmptyString]
  | String c s' =>
      if f c then EmptyString :: pieces f s'
      else match pieces f s' with
           | p :: ps => String c p :: ps
           | [] => [String c EmptyString]
           end
  end.

(** [strings.Split(s, sep)] for a separator of one byte. *)
Definition Split (s : string) (sep : ascii) : list string :=
  pieces (λ c, bool_decide (c = sep)) s.

(** [strings.FieldsFunc(s, f)]: the maximal runs of bytes that do not
    satisfy [f]; empty fields are not returned. *)
Definition FieldsFunc (s : string) (f : ascii → bool) : list string :=
  filter (λ p, p ≠ EmptyString) (pieces f s).

(** [strings.Join(elems, sep)]. *)
Fixpoint Join (elems : list string) (sep : string) : string :=
  match elems with
  | [] => ""
  | [e] => e
  | e :: es => e +:+ sep +:+ Join es sep
  end.

End GoStrings.

(** ** [strconv.Atoi] *)

Module strconv.

Definition digit (c : ascii) : option Z :=
  let n := Z.of_N (N_of_ascii c) in
  if decide (48 ≤ n ≤ 57) then Some (n - 48) else None.

Fixpoint digits (s : string) (acc : Z) : option Z :=
  match s with
  | EmptyString => Some acc
  | String c s' => d ← digit c; digits s' (acc * 10 + d)
  end.

(** [Atoi(s)]: [Some n] when [err == nil].  An optional sign, then one or
    more decimal digits; a value outside the range of [int] is an error. *)
Definition Atoi (s : string) : option Z :=
  let '(neg, ds) :=
    match s with
    | String "-" r => (true, r)
    | String "+" r => (false, r)
    | _ => (false, s)
    end in
  if decide (ds = EmptyString) then None
  else
    n ← digits ds 0;
    let v := if neg : bool then - n else n in
    if decide (GoInt.minInt ≤ v ≤ GoInt.maxInt) then Some v else None.

End strconv.

(** ** [base64.RawURLEncoding.DecodeString] *)

Module base64.

Definition encodeURL : string :=
  "ABCDEFGHIJKLMNOPQRSTUVWXYZabcdefghijklmnopqrstuvwxyz0123456789-_".

Fixpoint find (c : ascii) (s : string) (i : Z) : option Z :=
  match s with
  | EmptyString => None
  | String c' s' => if decide (c = c') then Some i else find c s' (i + 1)
  end.

(** The six bits a character of the alphabet stands for. *)
Definition decodeMap (c : ascii) : option Z := find c encodeURL 0.

(** The characters of the input as six-bit values.  Carriage returns and
    line feeds are skipped; any other character outside the alphabet (the
    padding character [=] too: this encoding has no padding) is an error. *)
Fixpoint sextets (s : string) : option (list Z) :=
  match s with
  | EmptyString => Some []
  | String c s' =>
      if decide (c = "010"%char ∨ c = "013"%char) then sextets s'
      else d ← decodeMap c; ds ← sextets s'; Some (d :: ds)
  end.

(** [byte(z)]. *)
Definition to_byte (z : Z) : byte :=
  default x00 (Byte.of_N (Z.to_N (z mod 256))).

Definition val (a b c d : Z) : Z :=
  Z.lor (Z.lor (Z.lor (Z.shiftl a 18) (Z.shiftl b 12)) (Z.shiftl c 6)) d.

(** Four characters give three bytes; a last group of two or three
    characters gives one or two bytes (its low bits are not checked: the
    encoding is not strict); a last group of one character is an error. *)
Fixpoint quanta (ds : list Z) : option (list byte) :=
  match ds with
  | [] => Some []
  | [_] => None
  | [a; b] => Some [to_byte (Z.shiftr (val a b 0 0) 16)]
  | [a; b; c] =>
      Some [to_byte (Z.shiftr (val a b c 0) 16);
            to_byte (Z.shiftr (val a b c 0) 8)]
  | a :: b :: c :: d :: rest =>
      bs ← quanta rest;
      Some (to_byte (Z.shiftr (val a b c d) 16)
            :: to_byte (Z.shiftr (val a b c d) 8)
            :: to_byte (val a b c d) :: bs)
  end.

(** [Some bytes] when [err == nil]; the error is a [CorruptInputError]. *)
Definition DecodeString (s : string) : option (list byte) :=
  ds ← sextets s; quanta ds.

End base64.

(** ** [net/http]: headers *)

Module http.

Definition StatusBadRequest : Z := 400.
Definition StatusUnsupportedMediaType : Z := 415.

Definition is_upper (c : ascii) : bool :=
  let n := N_of_ascii c in bool_decide (65 ≤ n ≤ 90)%N.
Definition is_lower (c : ascii) : bool :=
  let n := N_of_ascii c in bool_decide (97 ≤ n ≤ 122)%N.
Definition is_digit (c : ascii) : bool :=
  let n := N_of_ascii c in bool_decide (48 ≤ n ≤ 57)%N.

Definition validHeaderFieldByte (c : ascii) : bool :=
  is_upper c || is_lower c || is_digit c
  || GoStrings.has_byte c "!#$%&'*+-.^_`|~".

Fixpoint all_valid (s : string) : bool :=
  match s with
  | EmptyString => true
  | String c s' => validHeaderFieldByte c && all_valid s'
  end.

(** First letter and every letter after a dash in upper case, every other
    letter in lower case. *)
Fixpoint canonical (upper : bool) (s : string) : string :=
  match s with
  | EmptyString => EmptyString
  | String c s' =>
      let c' :=
        if upper && is_lower c then ascii_of_N (N_of_ascii c - 32)
        else if negb upper && is_upper c then ascii_of_N (N_of_ascii c + 32)
        else c in
      String c' (canonical (bool_decide (c' = "-"%char)) s')
  end.

(** [textproto.CanonicalMIMEHeaderKey]: a name with a byte that is not a
    header field byte is returned as it is. *)
Definition CanonicalMIMEHeaderKey (s : string) : string :=
  if all_valid s then canonical true s else s.

(** [http.Header]: the values of each header, under its canonical name. *)
Abbreviation Header := (gmap string (list string)).

(** [Header.Get]: the first value of the header, [""] when there is none. *)
Definition Get (h : Header) (key : string) : string :=
  match h !! CanonicalMIMEHeaderKey key with
  | Some (v :: _) => v
  | _ => ""
  end.

End http.

(** ** Requests, messages and errors *)

(** What the handler reads of an [http.Request]. *)
Record Request := {
  URL_Path : string;
  Header : http.Header;
  Body : list byte;
}.

(** [fcm.Message], with the title of its [Notification]. *)
Record Message := {
  To : string;
  Data : gmap string string;
  MutableContent : bool;
  ContentAvailable : bool;
  Notification_Title : string;
  TimeToLive : option Z;
  CollapseKey : string;
  Priority : string;
}.

(** [message.Data[k] = v]. *)
Definition set_Data (k v : string) (m : Message) : Message :=
  {| To := To m; Data := <[k := v]> (Data m);
     MutableContent := MutableContent m; ContentAvailable := ContentAvailable m;
     Notification_Title := Notification_Title m; TimeToLive := TimeToLive m;
     CollapseKey := CollapseKey m; Priority := Priority m |}.

(** [message.TimeToLive = &timeToLive]. *)
Definition set_TimeToLive (t : Z) (m : Message) : Message :=
  {| To := To m; Data := Data m;
     MutableContent := MutableContent m; ContentAvailable := ContentAvailable m;
     Notification_Title := Notification_Title m; TimeToLive := Some t;
     CollapseKey := CollapseKey m; Priority := Priority m |}.

(** [message.CollapseKey = topic]. *)
Definition set_CollapseKey (topic : string) (m : Message) : Message :=
  {| To := To m; Data := Data m;
     MutableContent := MutableContent m; ContentAvailable := ContentAvailable m;
     Notification_Title := Notification_Title m; TimeToLive := TimeToLive m;
     CollapseKey := topic; Priority := Priority m |}.

(** [message.Priority = p]. *)
Definition set_Priority (p : string) (m : Message) : Message :=
  {| To := To m; Data := Data m;
     MutableContent := MutableContent m; ContentAvailable := ContentAvailable m;
     Notification_Title := Notification_Title m; TimeToLive := TimeToLive m;
     CollapseKey := CollapseKey m; Priority := p |}.

(** The values of Go's [error] that the helpers return. *)
Inductive error :=
  | errorString (msg : string)   (* [errors.New(msg)] *)
  | CorruptInputError.           (* of [encoding/base64]; its offset is left out *)

(** What a call of the handler does, when it does not panic. *)
Inductive response :=
  | Error (code : Z) (msg : string)  (* [http.Error(writer, msg, code); return] *)
  | Queued (message : Message).      (* [messageChan <- message; writer.WriteHeader(201)] *)

(** ** The header parsers *)

(** [for _, x := range l { body }] over a loop state. *)
Fixpoint for_range {A S : Type} (l : list A) (body : A → S → option S) (s : S)
  : option S :=
  match l with
  | [] => Some s
  | x :: l' => s' ← body x s; for_range l' body s'
  end.

(** [parts := strings.Split(entry, "="); m[parts[0]] = parts[1]]. *)
Definition parse_entry (entry : string) (m : gmap string string)
  : option (gmap string string) :=
  let parts := GoStrings.Split entry "=" in
  k ← index parts 0;
  v ← index parts 1;
  Some (<[k := v]> m).

Definition parseKeyValues (values : string) : option (gmap string string) :=
  let f := λ c : ascii, bool_decide (c = ";"%char) in
  let entries := GoStrings.FieldsFunc values f in
  for_range entries parse_entry ∅.

Definition encodedValue (header : http.Header) (name key : string)
  : option (string + error) :=
  keyValues ← parseKeyValues (http.Get header name);
  match keyValues !! key with
  | None =>
      Some (inr (errorString
                   ("Value " +:+ key +:+ " not found in header " +:+ name)))
  | Some value =>
      match base64.DecodeString value with
      | None => Some (inr CorruptInputError)
      | Some bytes => s ← encode85 bytes; Some (inl s)
      end
  end.

(** ** The handler *)

Definition title : string := "🎺".

(** The end of the handler, from the [TTL] header to the send on the
    channel: none of it returns early. *)
Definition finish (request : Request) (message : Message) : response :=
  let message :=
    let seconds := http.Get (Header request) "TTL" in
    if decide (seconds ≠ "") then
      match strconv.Atoi seconds with
      | Some ttl => set_TimeToLive (GoInt.uint ttl) message
      | None => message
      end
    else message in
  let message :=
    let topic := http.Get (Header request) "Topic" in
    if decide (topic ≠ "") then set_CollapseKey topic message else message in
  let message :=
    let urgency := http.Get (Header request) "Urgency" in
    if decide (urgency = "very-low" ∨ urgency = "low")
    then set_Priority "normal" message
    else set_Priority "high" message in
  Queued message.

(** [handler]: [None] is a panic of the goroutine that serves the request
    (no response is written). *)
Definition handler (request : Request) : option response :=
  let components := GoStrings.Split (URL_Path request) "/" in
  if decide (length components < 4)%nat then
    Some (Error http.StatusBadRequest "Invalid URL path")
  else
  c2 ← index components 2;
  if decide (c2 ≠ "fcm") then
    Some (Error http.StatusBadRequest "Invalid target environment")
  else
  deviceToken ← index components 3;
  if decide (deviceToken = "") then
    Some (Error http.StatusBadRequest "Missing device token")
  else
  encodedString ← encode85 (Body request);
  let message :=
    {| To := deviceToken;
       Data := {[ "p" := encodedString ]};
       MutableContent := true;
       ContentAvailable := true;
       Notification_Title := title;
       TimeToLive := None;
       CollapseKey := "";
       Priority := "" |} in
  message ← (if decide (4 < length components)%nat then
               extra ← reslice components 4;
               Some (set_Data "x" (GoStrings.Join extra "/") message)
             else Some message);
  if decide (http.Get (Header request) "Content-Encoding" = "aesgcm") then
    r ← encodedValue (Header request) "Crypto-Key" "dh";
    match r with
    | inr err => Some (Error http.StatusBadRequest "Error retrieving public key")
    | inl publicKey =>
        let message := set_Data "k" publicKey message in
        r ← encodedValue (Header request) "Encryption" "salt";
        match r with
        | inr err => Some (Error http.StatusBadRequest "Error retrieving salt")
        | inl salt =>
            let message := set_Data "s" salt message in
            Some (finish request message)
        end
    end
  else
    Some (Error http.StatusUnsupportedMediaType "Unsupported content encoding").

(** ** The handler of the second version of the file

    The repository has a second version of [webpush-fcm-relay.go], for the
    HTTP v1 API of FCM.  Its [encode85], [parseKeyValues] and [encodedValue]
    are those above (the text of one error message apart); its handler builds
    a [messaging.Message] of the Firebase SDK instead of an [fcm.Message]. *)

Module Messaging.

(** [messaging.AndroidConfig], with the title of its [Notification]; the
    time to live is a [time.Duration], a number of nanoseconds. *)
Record AndroidConfig := {
  Android_Data : gmap string string;
  Android_Notification_Title : string;
  Android_TTL : option Z;
  Android_CollapseKey : string;
  Android_Priority : string;
}.

(** [messaging.Message].  Its field [Data] is a map of its own, next to the
    map [Android.Data]; a map that no one has made is [nil]: [None]. *)
Record Message := {
  Token : string;
  Data : option (gmap string string);
  Android : AndroidConfig;
  APNS_ContentAvailable : bool;
  APNS_MutableContent : bool;
}.

(** [message.Data[k] = v]: an assignment to an entry of a nil map panics. *)
Definition set_Data (k v : string) (m : Message) : option Message :=
  data ← Data m;
  Some {| Token := Token m; Data := Some (<[k := v]> data);
          Android := Android m;
          APNS_ContentAvailable := APNS_ContentAvailable m;
          APNS_MutableContent := APNS_MutableContent m |}.

Definition set_Android (f : AndroidConfig → AndroidConfig) (m : Message)
  : Message :=
  {| Token := Token m; Data := Data m; Android := f (Android m);
     APNS_ContentAvailable := APNS_ContentAvailable m;
     APNS_MutableContent := APNS_MutableContent m |}.

(** [message.Android.TTL = &timeToLive]. *)
Definition set_TTL (t : Z) (a : AndroidConfig) : AndroidConfig :=
  {| Android_Data := Android_Data a;
     Android_Notification_Title := Android_Notification_Title a;
     Android_TTL := Some t;
     Android_CollapseKey := Android_CollapseKey a;
     Android_Priority := Android_Priority a |}.

(** [message.Android.CollapseKey = topic]. *)
Definition set_CollapseKey (topic : string) (a : AndroidConfig)
  : AndroidConfig :=
  {| Android_Data := Android_Data a;
     Android_Notification_Title := Android_Notification_Title a;
     Android_TTL := Android_TTL a;
     Android_CollapseKey := topic;
     Android_Priority := Android_Priority a |}.

(** [message.Android.Priority = p]. *)
Definition set_Priority (p : string) (a : AndroidConfig) : AndroidConfig :=
  {| Android_Data := Android_Data a;
     Android_Notification_Title := Android_Notification_Title a;
     Android_TTL := Android_TTL a;
     Android_CollapseKey := Android_CollapseKey a;
     Android_Priority := p |}.

(** [time.Second], in nanoseconds. *)
Definition Second : Z := 1000000000.

(** What a call of the handler does, when it does not panic.  In this
    version [main] does not make the channel: [messageChan] is nil, and a
    send on it would not return. *)
Inductive response :=
  | Error (code : Z) (msg : string)  (* [http.Error(writer, msg, code); return] *)
  | Send (message : Message).        (* the handler reaches [messageChan <- message] *)

(** From the [TTL] header to the send on the channel. *)
Definition finish (request : Request) (message : Message) : response :=
  let message :=
    let seconds := http.Get (Header request) "TTL" in
    if decide (seconds ≠ "") then
      match strconv.Atoi seconds with
      | Some ttl => set_Android (set_TTL (GoInt.int (ttl * Second))) message
      | None => message
      end
    else message in
  let message :=
    let topic := http.Get (Header request) "Topic" in
    if decide (topic ≠ "") then set_Android (set_CollapseKey topic) message
    else message in
  let message :=
    let urgency := http.Get (Header request) "Urgency" in
    if decide (urgency = "very-low" ∨ urgency = "low")
    then set_Android (set_Priority "normal") message
    else set_Android (set_Priority "high") message in
  Send message.

Definition handler (request : Request) : option response :=
  let components := GoStrings.Split (URL_Path request) "/" in
  if decide (length components < 4)%nat then
    Some (Error http.StatusBadRequest "Invalid URL path")
  else
  c2 ← index components 2;
  if decide (c2 ≠ "fcm") then
    Some (Error http.StatusBadRequest "Invalid target environment")
  else
  deviceToken ← index components 3;
  if decide (deviceToken = "") then
    Some (Error http.StatusBadRequest "Missing device token")
  else
  encodedString ← encode85 (Body request);
  let message :=
    {| Token := deviceToken;
       Data := None;
       Android :=
         {| Android_Data := {[ "p" := encodedString ]};
            Android_Notification_Title := title;
            Android_TTL := None;
            Android_CollapseKey := "";
            Android_Priority := "" |};
       APNS_ContentAvailable := true;
       APNS_MutableContent := true |} in
  message ← (if decide (4 < length components)%nat then
               extra ← reslice components 4;
               set_Data "x" (GoStrings.Join extra "/") message
             else Some message);
  if decide (http.Get (Header request) "Content-Encoding" = "aesgcm") then
    r ← encodedValue (Header request) "Crypto-Key" "dh";
    match r with
    | inr err => Some (Error http.StatusBadRequest "Error retrieving public key")
    | inl publicKey =>
        message ← set_Data "k" publicKey message;
        r ← encodedValue (Header request) "Encryption" "salt";
        match r with
        | inr err => Some (Error http.StatusBadRequest "Error retrieving salt")
        | inl salt =>
            message ← set_Data "s" salt message;
            Some (finish request message)
        end
    end
  else
    Some (Error http.StatusUnsupportedMediaType "Unsupported content encoding").

End Messaging.

(** ** Sample requests *)

Module Examples.

(** Headers with one value each, under their canonical names. *)
Definition headers (l : list (string * string)) : http.Header :=
  list_to_map ((λ kv, (http.CanonicalMIMEHeaderKey kv.1, [kv.2])) <$> l).

(** The three headers that every accepted request has. *)
Definition aesgcm : list (string * string) :=
  [("Content-Encoding", "aesgcm");
   ("Crypto-Key", "dh=SGVsbG8");
   ("Encryption", "salt=AAAA")].

Definition request (path : string) (l : list (string * string)) : Request :=
  {| URL_Path := path; Header := headers l; Body := [x48; x69] |}.

(** An accepted request, with and without a path suffix. *)
Definition plain : Request := request "/relay-to/fcm/ABC123" aesgcm.
Definition with_extra : Request := request "/relay-to/fcm/ABC123/foo/bar" aesgcm.

(** A path that ends in a slash: five segments, the last one empty. *)
Definition trailing_slash : Request := request "/relay-to/fcm/ABC123/" aesgcm.

(** No [Content-Encoding] header, and another encoding. *)
Definition no_encoding : Request :=
  request "/relay-to/fcm/ABC123"
    [("Crypto-Key", "dh=SGVsbG8"); ("Encryption", "salt=AAAA")].
Definition gzip : Request :=
  request "/relay-to/fcm/ABC123"
    [("Content-Encoding", "gzip"); ("Crypto-Key", "dh=SGVsbG8");
     ("Encryption", "salt=AAAA")].

(** Another encoding, on a path with a suffix. *)
Definition gzip_with_extra : Request :=
  request "/relay-to/fcm/ABC123/foo/bar" [("Content-Encoding", "gzip")].

(** A [Crypto-Key] header with an entry that has no [=]. *)
Definition malformed_entry : Request :=
  request "/relay-to/fcm/ABC123"
    [("Content-Encoding", "aesgcm");
     ("Crypto-Key", "dh=SGVsbG8;flag");
     ("Encryption", "salt=AAAA")].

(** A [dh] value with base64 padding. *)
Definition padded_dh : Request :=
  request "/relay-to/fcm/ABC123"
    [("Content-Encoding", "aesgcm");
     ("Crypto-Key", "dh=SGVsbG8=");
     ("Encryption", "salt=AAAA")].

(** [TTL] headers: a negative number, a number, and no number. *)
Definition negative_ttl : Request :=
  request "/relay-to/fcm/ABC123" (aesgcm ++ [("TTL", "-1")]).
Definition ttl_60 : Request :=
  request "/relay-to/fcm/ABC123" (aesgcm ++ [("TTL", "60")]).
Definition ttl_soon : Request :=
  request "/relay-to/fcm/ABC123" (aesgcm ++ [("TTL", "soon")]).

(** [Urgency] headers. *)
Definition urgency_low : Request :=
  request "/relay-to/fcm/ABC123" (aesgcm ++ [("Urgency", "low")]).
Definition urgency_high : Request :=
  request "/relay-to/fcm/ABC123" (aesgcm ++ [("Urgency", "high")]).

End Examples.

(** * Properties of the encoder *)

(** ** Arithmetic of the machine operations *)

Lemma land_low_high (a b n : Z) :
  0 ≤ n → 0 ≤ a < 2 ^ n → Z.land a (b * 2 ^ n) = 0.
Proof.
  intros Hn Ha. apply Z.bits_inj'. intros i Hi.
  rewrite Z.land_spec, Z.bits_0.
  destruct (Z.lt_ge_cases i n) as [Hlt | Hge].
  - rewrite (Z.mul_pow2_bits_low b n i) by lia. apply andb_false_r.
  - rewrite <- (Z.mod_small a (2 ^ n)) by lia.
    rewrite Z.mod_pow2_bits_high by lia. reflexivity.
Qed.

Lemma lor_low_high (a b n : Z) :
  0 ≤ n → 0 ≤ a < 2 ^ n → Z.lor a (b * 2 ^ n) = a + b * 2 ^ n.
Proof.
  intros Hn Ha.
  rewrite <- Z.lxor_lor by (apply land_low_high; lia).
  symmetry. apply Z.add_nocarry_lxor. apply land_low_high; lia.
Qed.

Lemma of_byte_range (b : byte) : 0 ≤ GoInt.of_byte b < 256.
Proof.
  unfold GoInt.of_byte. pose proof (Byte.to_N_bounded b). lia.
Qed.

Lemma int_small (z : Z) : - 2 ^ 63 ≤ z < 2 ^ 63 → GoInt.int z = z.
Proof. intros H. unfold GoInt.int. rewrite Z.mod_small; lia. Qed.

Lemma uint32_small (z : Z) : 0 ≤ z < 2 ^ 32 → GoInt.uint32 z = z.
Proof. intros H. unfold GoInt.uint32. apply Z.mod_small. lia. Qed.

Lemma big_endian_snoc (bs : list byte) (b : byte) :
  Reference.big_endian (bs ++ [b])
  = Reference.big_endian bs * 256 + GoInt.of_byte b.
Proof. unfold Reference.big_endian. rewrite fold_left_app. reflexivity. Qed.

Lemma big_endian_range (bs : list byte) :
  0 ≤ Reference.big_endian bs < 256 ^ Z.of_nat (length bs).
Proof.
  induction bs as [| b bs IH] using rev_ind.
  - cbn. lia.
  - rewrite big_endian_snoc, length_app, Nat2Z.inj_add, Z.pow_add_r by lia.
    pose proof (of_byte_range b). cbn [length]. change (256 ^ Z.of_nat 1) with 256.
    nia.
Qed.

Lemma BigEndian_Uint32_spec (b0 b1 b2 b3 : byte) (rest : list byte) :
  BigEndian_Uint32 (b0 :: b1 :: b2 :: b3 :: rest)
  = Some (Reference.big_endian [b0; b1; b2; b3]).
Proof.
  unfold BigEndian_Uint32. cbn [lookup list_lookup mbind option_bind].
  f_equal.
  pose proof (of_byte_range b0). pose proof (of_byte_range b1).
  pose proof (of_byte_range b2). pose proof (of_byte_range b3).
  rewrite !Z.shiftl_mul_pow2 by lia.
  rewrite !uint32_small by lia.
  rewrite (lor_low_high _ _ 8) by lia.
  rewrite (lor_low_high _ _ 16) by lia.
  rewrite (lor_low_high _ _ 24) by lia.
  unfold Reference.big_endian. cbn [fold_left]. lia.
Qed.

(** ** The digit loops *)

Lemma list_byte_of_string_app (a b : string) :
  String.list_byte_of_string (a +:+ b)
  = String.list_byte_of_string a ++ String.list_byte_of_string b.
Proof.
  unfold String.list_byte_of_string.
  induction a as [| c a IH]; [reflexivity |].
  change (String c a +:+ b) with (String c (a +:+ b)).
  cbn [String.list_ascii_of_string map app]. f_equal. exact IH.
Qed.

Lemma string_of_list_byte_app (a b : list byte) :
  String.string_of_list_byte (a ++ b)
  = String.string_of_list_byte a +:+ String.string_of_list_byte b.
Proof.
  unfold String.string_of_list_byte.
  induction a as [| c a IH]; [reflexivity |].
  cbn [app map String.string_of_list_ascii].
  change (String ?x ?y +:+ ?z) with (String x (y +:+ z)). f_equal. exact IH.
Qed.

Lemma z85digits_lookup (d : Z) :
  0 ≤ d < 85 →
  index z85digits d = Some (byte_of_ascii (Reference.digit_char d)).
Proof.
  intros Hd. unfold index, Reference.digit_char.
  destruct (decide (0 ≤ d)) as [_ | ?]; [| lia].
  assert (Hn : (Z.to_nat d < 85)%nat) by lia.
  generalize dependent (Z.to_nat d). intros n Hn.
  do 85 (destruct n as [| n]; [vm_compute; reflexivity |]).
  lia.
Qed.

Lemma digits_snoc (n : nat) (v : Z) :
  0 ≤ v →
  Reference.digits (S n) v
  = Reference.digits n (v / 85) +:+ String (Reference.digit_char (v mod 85)) "".
Proof.
  intros Hv. induction n as [| n IH].
  - cbn [Reference.digits String.append]. rewrite Z.pow_0_r, Z.div_1_r. reflexivity.
  - change (Reference.digits (S (S n)) v)
      with (String (Reference.digit_char ((v / 85 ^ Z.of_nat (S n)) mod 85))
                   (Reference.digits (S n) v)).
    rewrite IH. cbn [Reference.digits String.append]. f_equal. f_equal. f_equal.
    rewrite Nat2Z.inj_succ, Z.pow_succ_r by lia.
    rewrite Z.div_div by lia. reflexivity.
Qed.

Lemma length_digits (n : nat) (v : Z) :
  String.length (Reference.digits n v) = n.
Proof. induction n as [| n IH]; cbn; [reflexivity | f_equal; exact IH]. Qed.

Lemma digit_step_eq (md dv : Z → Z → Z) (dest : nat) (last i v : Z)
    (mem : list byte) :
  digit_step md dv dest last i (v, mem)
  = (d ← index z85digits (md v 85);
     mem' ← slice_set mem dest (last - i) d;
     Some (dv v 85, mem')).
Proof. reflexivity. Qed.

Section DigitLoop.

(** The remainder and quotient of the loop: those of a [uint32], or the
    truncated ones of an [int]; they agree on what is not negative. *)
Variables md dv : Z → Z → Z.
Hypothesis md_nonneg : ∀ v, 0 ≤ v → md v 85 = v mod 85.
Hypothesis dv_nonneg : ∀ v, 0 ≤ v → dv v 85 = v / 85.

Lemma digit_loop_spec (j : nat) :
  ∀ (i last v : Z) (pre mid post : list byte),
    0 ≤ v → last - i + 1 = Z.of_nat j → length mid = j →
    for_loop j i (digit_step md dv (length pre) last) (v, pre ++ mid ++ post)
    = Some (v / 85 ^ Z.of_nat j,
            pre ++ String.list_byte_of_string (Reference.digits j v) ++ post).
Proof.
  induction j as [| j IH]; intros i last v pre mid post Hv Hlast Hmid.
  - destruct mid; [| discriminate]. cbn. rewrite Z.div_1_r. reflexivity.
  - induction mid as [| x mid' _] using rev_ind; [discriminate |].
    rewrite length_app in Hmid. cbn [length] in Hmid.
    cbn [for_loop]. rewrite digit_step_eq.
    rewrite md_nonneg, dv_nonneg by exact Hv.
    rewrite z85digits_lookup by (apply Z.mod_pos_bound; lia).
    cbn [mbind option_bind].
    unfold slice_set.
    destruct (decide _) as [_ | Hbad];
      [| exfalso; apply Hbad; split; [lia | rewrite !length_app; cbn [length]; lia]].
    cbn [mbind option_bind].
    replace (length pre + Z.to_nat (last - i))%nat
      with (length (pre ++ mid') + 0)%nat by (rewrite length_app; lia).
    replace (pre ++ (mid' ++ [x]) ++ post) with ((pre ++ mid') ++ x :: post)
      by (rewrite <- !app_assoc; reflexivity).
    rewrite insert_app_r. cbn [insert list_insert].
    rewrite <- app_assoc.
    rewrite (IH (i + 1) last (v / 85) pre mid' (_ :: post)); [| | lia | lia].
    + f_equal. f_equal.
      * rewrite Z.div_div by lia. rewrite Nat2Z.inj_succ, Z.pow_succ_r by lia.
        reflexivity.
      * f_equal. rewrite digits_snoc by exact Hv.
        rewrite list_byte_of_string_app, <- app_assoc. reflexivity.
    + apply Z.div_pos; lia.
Qed.

End DigitLoop.

(** ** The block loop and the suffix *)

Lemma encode_block (b0 b1 b2 b3 : byte) (rest : list byte) :
  Reference.encode (b0 :: b1 :: b2 :: b3 :: rest)
  = Reference.digits 5 (Reference.big_endian [b0; b1; b2; b3])
    +:+ Reference.encode rest.
Proof. reflexivity. Qed.

Lemma encode_short (bs : list byte) :
  (0 < length bs < 4)%nat →
  Reference.encode bs
  = Reference.digits (S (length bs)) (Reference.big_endian bs).
Proof.
  intros H. destruct bs as [| b0 [| b1 [| b2 [| b3 bs]]]]; cbn [length] in H;
    try lia; reflexivity.
Qed.

Lemma string_app_assoc (a b c : string) : (a +:+ b) +:+ c = a +:+ (b +:+ c).
Proof.
  induction a as [| x a IH]; [reflexivity |].
  change (String x a +:+ b) with (String x (a +:+ b)).
  change (String x ?u +:+ ?w) with (String x (u +:+ w)). f_equal. exact IH.
Qed.

Lemma encode_take_drop (k : nat) :
  ∀ bs : list byte,
    (4 * k ≤ length bs)%nat →
    Reference.encode bs
    = Reference.encode (take (4 * k) bs) +:+ Reference.encode (drop (4 * k) bs).
Proof.
  induction k as [| k IH]; intros bs Hlen.
  - rewrite Nat.mul_0_r, take_0, drop_0. reflexivity.
  - destruct bs as [| b0 [| b1 [| b2 [| b3 bs]]]]; cbn [length] in Hlen; try lia.
    replace (4 * S k)%nat with (S (S (S (S (4 * k))))) by lia.
    cbn [take drop]. rewrite !encode_block, string_app_assoc.
    f_equal. apply IH. lia.
Qed.

Lemma reslice_ok {A} (l : list A) (k : nat) :
  (k ≤ length l)%nat → reslice l k = Some (drop k l).
Proof. intros H. unfold reslice. rewrite decide_True by exact H. reflexivity. Qed.

Lemma slice_from_ok (mem : list byte) (off k : nat) :
  (off + k ≤ length mem)%nat → slice_from mem off k = Some (off + k)%nat.
Proof.
  intros H. unfold slice_from. rewrite decide_True by exact H. reflexivity.
Qed.

Lemma length_list_byte_of_string (s : string) :
  length (String.list_byte_of_string s) = String.length s.
Proof.
  unfold String.list_byte_of_string.
  induction s as [| c s IH]; [reflexivity |].
  cbn [String.list_ascii_of_string map length String.length]. f_equal. exact IH.
Qed.

Lemma length_digit_bytes (n : nat) (v : Z) :
  length (String.list_byte_of_string (Reference.digits n v)) = n.
Proof. rewrite length_list_byte_of_string. apply length_digits. Qed.

Lemma block_step_eq (block : Z) (src : list byte) (dest : nat)
    (mem : list byte) :
  block_step block (src, dest, mem)
  = (value ← BigEndian_Uint32 src;
     '(_, mem') ← for_loop 5 0 (digit_step Z.modulo Z.div dest 4) (value, mem);
     src' ← reslice src 4;
     dest' ← slice_from mem' dest 5;
     Some (src', dest', mem')).
Proof. reflexivity. Qed.

Lemma suffix_step_eq (src : list byte) (i value : Z) :
  suffix_step src i value
  = (b ← index src i;
     Some (Z.lor (GoInt.int (value * 256)) (GoInt.of_byte b))).
Proof. reflexivity. Qed.

Lemma block_loop_spec (k : nat) :
  ∀ (i : Z) (bs pre post : list byte),
    (4 * k ≤ length bs)%nat →
    for_loop k i block_step
      (bs, length pre, pre ++ replicate (5 * k) x00 ++ post)
    = Some (drop (4 * k) bs, (length pre + 5 * k)%nat,
            pre ++ String.list_byte_of_string
                     (Reference.encode (take (4 * k) bs)) ++ post).
Proof.
  induction k as [| k IH]; intros i bs pre post Hlen.
  - rewrite !Nat.mul_0_r, Nat.add_0_r, take_0, drop_0. reflexivity.
  - destruct bs as [| b0 [| b1 [| b2 [| b3 bs]]]]; cbn [length] in Hlen; try lia.
    replace (4 * S k)%nat with (S (S (S (S (4 * k))))) by lia.
    replace (5 * S k)%nat with (5 + 5 * k)%nat by lia.
    rewrite replicate_add, <- app_assoc.
    cbn [for_loop take drop]. rewrite block_step_eq.
    rewrite BigEndian_Uint32_spec. cbn [mbind option_bind].
    pose proof (big_endian_range [b0; b1; b2; b3]) as Hv.
    rewrite (digit_loop_spec Z.modulo Z.div) with (last := 4);
      [| reflexivity | reflexivity | apply Hv | reflexivity
       | apply length_replicate].
    cbn [mbind option_bind].
    set (d5 := String.list_byte_of_string (Reference.digits 5 _)).
    assert (Hd5 : length d5 = 5%nat) by apply length_digit_bytes.
    rewrite reslice_ok by (cbn [length]; lia).
    cbn [mbind option_bind drop].
    rewrite slice_from_ok by (rewrite !length_app; lia).
    cbn [mbind option_bind].
    replace (length pre + 5)%nat with (length (pre ++ d5))
      by (rewrite length_app; lia).
    rewrite (app_assoc pre d5).
    rewrite drop_0, IH by lia. f_equal. f_equal; [f_equal |].
    + rewrite length_app. lia.
    + rewrite encode_block, list_byte_of_string_app.
      fold d5. rewrite <- !app_assoc. reflexivity.
Qed.

Lemma suffix_loop_spec (todo : list byte) :
  ∀ (done : list byte) (acc : Z),
    (length done + length todo ≤ 7)%nat →
    0 ≤ acc < 256 ^ Z.of_nat (length done) →
    for_loop (length todo) (Z.of_nat (length done))
      (suffix_step (done ++ todo)) acc
    = Some (fold_left (λ a b, a * 256 + GoInt.of_byte b) todo acc).
Proof.
  induction todo as [| b todo IH]; intros done acc Hlen Hacc; [reflexivity |].
  cbn [length for_loop fold_left] in *. rewrite suffix_step_eq. unfold index.
  destruct (decide _) as [_ | ?]; [| lia].
  rewrite Nat2Z.id, list_lookup_middle by reflexivity.
  cbn [mbind option_bind].
  pose proof (of_byte_range b) as Hb.
  assert (Hpow : 256 ^ Z.of_nat (length done) ≤ 256 ^ 6)
    by (apply Z.pow_le_mono_r; lia).
  change (256 ^ 6) with 281474976710656 in Hpow.
  rewrite int_small by lia.
  rewrite Z.lor_comm, (lor_low_high _ _ 8) by lia.
  change (2 ^ 8) with 256.
  replace (done ++ b :: todo) with ((done ++ [b]) ++ todo)
    by (rewrite <- app_assoc; reflexivity).
  replace (Z.of_nat (length done) + 1) with (Z.of_nat (length (done ++ [b])))
    by (rewrite length_app; cbn [length]; lia).
  rewrite IH.
  - f_equal. f_equal. lia.
  - rewrite length_app. cbn [length]. lia.
  - rewrite length_app, Nat2Z.inj_add, Z.pow_add_r by lia.
    change (256 ^ Z.of_nat (length [b])) with 256. lia.
Qed.

Lemma string_app_nil_r (s : string) : s +:+ "" = s.
Proof.
  induction s as [| c s IH]; [reflexivity |].
  change (String c s +:+ "") with (String c (s +:+ "")). f_equal. exact IH.
Qed.

Lemma string_length_app (a b : string) :
  String.length (a +:+ b) = (String.length a + String.length b)%nat.
Proof.
  induction a as [| c a IH]; [reflexivity |].
  change (String c a +:+ b) with (String c (a +:+ b)).
  cbn [String.length]. rewrite IH. reflexivity.
Qed.

Lemma length_encode_blocks (k : nat) :
  ∀ l : list byte,
    length l = (4 * k)%nat → String.length (Reference.encode l) = (5 * k)%nat.
Proof.
  induction k as [| k IH]; intros l Hl.
  - destruct l; [reflexivity | discriminate].
  - destruct l as [| b0 [| b1 [| b2 [| b3 l]]]]; cbn [length] in Hl; try lia.
    rewrite encode_block, string_length_app, length_digits, IH by lia. lia.
Qed.

(** The length law, on the reference encoder. *)
Lemma length_encode (bs : list byte) :
  String.length (Reference.encode bs)
  = (5 * (length bs / 4)
     + (if decide (0 < length bs mod 4) then length bs mod 4 + 1 else 0))%nat.
Proof.
  pose proof (Nat.div_mod_eq (length bs) 4) as Hn.
  pose proof (Nat.mod_upper_bound (length bs) 4) as Hlt.
  set (k := (length bs / 4)%nat) in *. set (r := (length bs mod 4)%nat) in *.
  rewrite (encode_take_drop k bs) by lia.
  rewrite string_length_app.
  assert (Hdrop : length (drop (4 * k) bs) = r) by (rewrite length_drop; lia).
  assert (Htake : length (take (4 * k) bs) = (4 * k)%nat)
    by (rewrite length_take; lia).
  f_equal.
  - apply length_encode_blocks, Htake.
  - destruct (decide (0 < r)%nat) as [Hpos | Hz].
    + rewrite encode_short, length_digits by lia. lia.
    + destruct (drop (4 * k) bs); [reflexivity | cbn [length] in Hdrop; lia].
Qed.

(** [encode85] never panics, and computes the reference encoding. *)
Lemma encode85_reference (bytes : list byte) :
  encode85 bytes = Some (Reference.encode bytes).
Proof.
  unfold encode85.
  set (n := length bytes).
  assert (Hq : Z.quot (Z.of_nat n) 4 = Z.of_nat (n / 4)%nat).
  { rewrite Z.quot_div_nonneg by lia. rewrite (Nat2Z.inj_div n 4). reflexivity. }
  assert (Hr : Z.rem (Z.of_nat n) 4 = Z.of_nat (n mod 4)%nat).
  { rewrite Z.rem_mod_nonneg by lia. rewrite (Nat2Z.inj_mod n 4). reflexivity. }
  rewrite Hq, Hr.
  pose proof (Nat.div_mod_eq n 4) as Hn.
  pose proof (Nat.mod_upper_bound n 4) as Hlt.
  set (k := (n / 4)%nat) in *. set (r := (n mod 4)%nat) in *.
  rewrite !Nat2Z.id.
  set (tail := if decide (Z.of_nat r ≠ 0) then S r else 0%nat).
  assert (Hmem : replicate
            (Z.to_nat (if decide (Z.of_nat r ≠ 0)
                       then Z.of_nat k * 5 + (Z.of_nat r + 1)
                       else Z.of_nat k * 5)) x00
          = [] ++ replicate (5 * k) x00 ++ replicate tail x00).
  { cbn [app]. rewrite <- replicate_add. f_equal. unfold tail.
    destruct (decide _); lia. }
  rewrite Hmem.
  change 0%nat with (@length byte []) at 1.
  rewrite (block_loop_spec k 0 bytes [] (replicate tail x00)) by (fold n; lia).
  cbn [mbind option_bind app length Nat.add].
  rewrite (encode_take_drop k bytes) by (fold n; lia).
  assert (Hdrop : length (drop (4 * k) bytes) = r).
  { rewrite length_drop. fold n. lia. }
  unfold tail. destruct (decide (Z.of_nat r ≠ 0)) as [Hnz | Hz].
  - pose proof (suffix_loop_spec (drop (4 * k) bytes) [] 0) as Hsuf.
    rewrite Hdrop in Hsuf. cbn [app length] in Hsuf.
    change (Z.of_nat 0) with 0 in Hsuf.
    rewrite Hsuf by (cbn; lia).
    cbn [mbind option_bind].
    change (fold_left _ (drop (4 * k) bytes) 0)
      with (Reference.big_endian (drop (4 * k) bytes)).
    pose proof (big_endian_range (drop (4 * k) bytes)) as Hv.
    set (pre := String.list_byte_of_string (Reference.encode (take (4 * k) bytes))).
    assert (Hpre : (5 * k)%nat = length pre).
    { unfold pre. rewrite length_list_byte_of_string.
      symmetry. apply length_encode_blocks. rewrite length_take. fold n. lia. }
    rewrite Hpre.
    replace (Z.to_nat (Z.of_nat r + 1)) with (S r) by lia.
    replace (replicate (S r) x00) with (replicate (S r) x00 ++ []) by apply app_nil_r.
    rewrite (digit_loop_spec Z.rem Z.quot);
      [| intros; apply Z.rem_mod_nonneg; lia
       | intros; apply Z.quot_div_nonneg; lia
       | lia | lia | apply length_replicate].
    cbn [mbind option_bind]. f_equal.
    rewrite app_nil_r, string_of_list_byte_app.
    unfold pre. rewrite !String.string_of_list_byte_of_string.
    f_equal. rewrite encode_short by lia. rewrite Hdrop. reflexivity.
  - cbn [mbind option_bind]. f_equal.
    rewrite app_nil_r, String.string_of_list_byte_of_string.
    destruct (drop (4 * k) bytes); [| cbn [length] in Hdrop; lia].
    change (Reference.encode []) with "". symmetry. apply string_app_nil_r.
Qed.

(** ** The claims on the encoder *)

(** C1. For every byte sequence, [encode85] returns the reference base-85
    expansion: each complete block of four bytes, read as a big-endian
    unsigned 32-bit number, gives five characters of the alphabet, most
    significant digit first; a remainder of one to three bytes, read
    big-endian, gives one character more than it has bytes.  In particular
    the empty input gives the empty string, four zero bytes give ["00000"]
    and the byte 255 gives ["30"]. *)
Theorem encode85_reference_expansion :
  (∀ bytes : list byte, encode85 bytes = Some (Reference.encode bytes))
  ∧ encode85 [] = Some ""
  ∧ encode85 [x00; x00; x00; x00] = Some "00000"
  ∧ encode85 [xff] = Some "30".
Proof.
  split; [exact encode85_reference |].
  repeat split; vm_compute; reflexivity.
Qed.

(** C2. For every byte sequence of length [n], [encode85] returns a string of
    length [5 * (n / 4)], plus [n mod 4 + 1] when [n mod 4] is positive; the
    empty input gives the empty string. *)
Theorem encode85_length_law :
  (∀ bytes : list byte,
     ∃ s : string,
       encode85 bytes = Some s
       ∧ String.length s
         = (5 * (length bytes / 4)
            + (if decide (0 < length bytes mod 4)
               then length bytes mod 4 + 1 else 0))%nat)
  ∧ encode85 [] = Some "".
Proof.
  split; [| reflexivity].
  intros bytes. exists (Reference.encode bytes). split.
  - apply encode85_reference.
  - apply length_encode.
Qed.

(** * Properties of the handler *)

Lemma index_lookup {A} (l : list A) (i : nat) :
  index l (Z.of_nat i) = l !! i.
Proof. unfold index. rewrite decide_True by lia. rewrite Nat2Z.id. reflexivity. Qed.

(** ** The path *)

Lemma handler_short_path (request : Request) :
  (length (GoStrings.Split (URL_Path request) "/") < 4)%nat →
  handler request = Some (Error 400 "Invalid URL path").
Proof. intros H. unfold handler. rewrite decide_True by exact H. reflexivity. Qed.

Lemma handler_wrong_environment (request : Request) :
  let components := GoStrings.Split (URL_Path request) "/" in
  (4 ≤ length components)%nat →
  components !! 2%nat ≠ Some "fcm" →
  handler request = Some (Error 400 "Invalid target environment").
Proof.
  intros components Hlen Hc2. unfold handler. fold components.
  rewrite decide_False by lia.
  change 2 with (Z.of_nat 2). rewrite index_lookup.
  destruct (components !! 2%nat) as [c2 |] eqn:E.
  - cbn [mbind option_bind]. rewrite decide_True by congruence. reflexivity.
  - apply lookup_ge_None in E. lia.
Qed.

Lemma handler_missing_token (request : Request) :
  let components := GoStrings.Split (URL_Path request) "/" in
  components !! 2%nat = Some "fcm" →
  components !! 3%nat = Some "" →
  handler request = Some (Error 400 "Missing device token").
Proof.
  intros components Hc2 Hc3. unfold handler. fold components.
  apply lookup_lt_Some in Hc3 as Hlen.
  rewrite decide_False by lia.
  change 2 with (Z.of_nat 2). change 3 with (Z.of_nat 3).
  rewrite !index_lookup, Hc2. cbn [mbind option_bind].
  rewrite decide_False by (intros Hne; apply Hne; reflexivity).
  rewrite Hc3. cbn [mbind option_bind].
  rewrite decide_True by reflexivity. reflexivity.
Qed.

(** What the handler does on a request whose path it accepts. *)
Lemma handler_path_ok (request : Request) (deviceToken : string) :
  let components := GoStrings.Split (URL_Path request) "/" in
  let message :=
    (if decide (4 < length components)%nat
     then set_Data "x" (GoStrings.Join (drop 4 components) "/")
     else id)
      {| To := deviceToken;
         Data := {[ "p" := Reference.encode (Body request) ]};
         MutableContent := true;
         ContentAvailable := true;
         Notification_Title := title;
         TimeToLive := None;
         CollapseKey := "";
         Priority := "" |} in
  components !! 2%nat = Some "fcm" →
  components !! 3%nat = Some deviceToken →
  deviceToken ≠ "" →
  handler request
  = if decide (http.Get (Header request) "Content-Encoding" = "aesgcm") then
      r ← encodedValue (Header request) "Crypto-Key" "dh";
      match r with
      | inr _ => Some (Error 400 "Error retrieving public key")
      | inl publicKey =>
          r ← encodedValue (Header request) "Encryption" "salt";
          match r with
          | inr _ => Some (Error 400 "Error retrieving salt")
          | inl salt =>
              Some (finish request
                      (set_Data "s" salt (set_Data "k" publicKey message)))
          end
      end
    else Some (Error 415 "Unsupported content encoding").
Proof.
  intros components message Hc2 Hc3 Htok. unfold handler. fold components.
  apply lookup_lt_Some in Hc3 as Hlen.
  rewrite decide_False by lia.
  change 2 with (Z.of_nat 2). change 3 with (Z.of_nat 3).
  rewrite !index_lookup, Hc2. cbn [mbind option_bind].
  rewrite decide_False by (intros Hne; apply Hne; reflexivity).
  rewrite Hc3. cbn [mbind option_bind].
  rewrite decide_False by exact Htok.
  rewrite encode85_reference. cbn [mbind option_bind].
  rewrite reslice_ok by lia. cbn [mbind option_bind].
  unfold message.
  destruct (decide (4 < length components)%nat); reflexivity.
Qed.

(** The three ways in which the handler refuses a path, and no other. *)
Lemma path_cases (p : string) :
  let components := GoStrings.Split p "/" in
  (length components < 4)%nat
  ∨ ((4 ≤ length components)%nat ∧ components !! 2%nat ≠ Some "fcm")
  ∨ (components !! 2%nat = Some "fcm" ∧ components !! 3%nat = Some "")
  ∨ (∃ deviceToken, components !! 2%nat = Some "fcm"
                    ∧ components !! 3%nat = Some deviceToken
                    ∧ deviceToken ≠ "").
Proof.
  intros components.
  destruct (decide (length components < 4)%nat) as [Hlt | Hge]; [left; exact Hlt |].
  right.
  destruct (decide (components !! 2%nat = Some "fcm")) as [Hc2 | Hc2];
    [| left; split; [lia | exact Hc2]].
  right.
  destruct (components !! 3%nat) as [tok |] eqn:Hc3.
  - destruct (decide (tok = "")) as [-> | Hne].
    + left. split; [exact Hc2 | reflexivity].
    + right. exists tok. repeat split; [exact Hc2 | exact Hne].
  - apply lookup_ge_None in Hc3. lia.
Qed.

Lemma handler_queued_inv (request : Request) (m : Message) :
  handler request = Some (Queued m) →
  let components := GoStrings.Split (URL_Path request) "/" in
  ∃ (deviceToken publicKey salt : string),
    components !! 2%nat = Some "fcm"
    ∧ components !! 3%nat = Some deviceToken
    ∧ deviceToken ≠ ""
    ∧ http.Get (Header request) "Content-Encoding" = "aesgcm"
    ∧ encodedValue (Header request) "Crypto-Key" "dh" = Some (inl publicKey)
    ∧ encodedValue (Header request) "Encryption" "salt" = Some (inl salt)
    ∧ Queued m
      = finish request
          (set_Data "s" salt
             (set_Data "k" publicKey
                ((if decide (4 < length components)%nat
                  then set_Data "x" (GoStrings.Join (drop 4 components) "/")
                  else id)
                   {| To := deviceToken;
                      Data := {[ "p" := Reference.encode (Body request) ]};
                      MutableContent := true;
                      ContentAvailable := true;
                      Notification_Title := title;
                      TimeToLive := None;
                      CollapseKey := "";
                      Priority := "" |}))).
Proof.
  intros H components.
  destruct (path_cases (URL_Path request))
    as [Hs | [[Hl Hw] | [[Hf Hm] | (tok & Hc2 & Hc3 & Htok)]]].
  - rewrite handler_short_path in H by exact Hs. discriminate.
  - rewrite handler_wrong_environment in H by assumption. discriminate.
  - rewrite handler_missing_token in H by assumption. discriminate.
  - rewrite (handler_path_ok request tok) in H by assumption.
    destruct (decide _) as [Hce | _]; [| discriminate].
    destruct (encodedValue (Header request) "Crypto-Key" "dh")
      as [[publicKey | e] |]; try discriminate.
    cbn [mbind option_bind] in H.
    destruct (encodedValue (Header request) "Encryption" "salt")
      as [[salt | e] |]; try discriminate.
    cbn [mbind option_bind] in H.
    exists tok, publicKey, salt. repeat split; try assumption.
    apply (inj Some) in H. symmetry. exact H.
Qed.

(** ** The end of the handler *)

(** [finish] always puts a message on the channel; it sets the time to live,
    the collapse key and the priority, and nothing else. *)
Lemma finish_fields (request : Request) (message : Message) :
  ∃ m : Message,
    finish request message = Queued m
    ∧ To m = To message
    ∧ Data m = Data message
    ∧ Notification_Title m = Notification_Title message
    ∧ TimeToLive m
      = (let seconds := http.Get (Header request) "TTL" in
         if decide (seconds ≠ "") then
           match strconv.Atoi seconds with
           | Some ttl => Some (GoInt.uint ttl)
           | None => TimeToLive message
           end
         else TimeToLive message)
    ∧ Priority m
      = (let urgency := http.Get (Header request) "Urgency" in
         if decide (urgency = "very-low" ∨ urgency = "low")
         then "normal" else "high").
Proof.
  unfold finish. eexists. split; [reflexivity |].
  cbv zeta.
  repeat split;
    repeat (destruct (decide _)); try destruct (strconv.Atoi _);
    reflexivity.
Qed.

(** Everything that is known of a message that reached the channel. *)
Lemma handler_queued_fields (request : Request) (m : Message) :
  handler request = Some (Queued m) →
  let components := GoStrings.Split (URL_Path request) "/" in
  ∃ (publicKey salt : string),
    components !! 2%nat = Some "fcm"
    ∧ components !! 3%nat = Some (To m)
    ∧ To m ≠ ""
    ∧ http.Get (Header request) "Content-Encoding" = "aesgcm"
    ∧ encodedValue (Header request) "Crypto-Key" "dh" = Some (inl publicKey)
    ∧ encodedValue (Header request) "Encryption" "salt" = Some (inl salt)
    ∧ Data m
      = <["s" := salt]>
          (<["k" := publicKey]>
             ((if decide (4 < length components)%nat
               then <["x" := GoStrings.Join (drop 4 components) "/"]>
               else id)
                {[ "p" := Reference.encode (Body request) ]}))
    ∧ Notification_Title m = title
    ∧ TimeToLive m
      = (let seconds := http.Get (Header request) "TTL" in
         if decide (seconds ≠ "") then
           match strconv.Atoi seconds with
           | Some ttl => Some (GoInt.uint ttl)
           | None => None
           end
         else None)
    ∧ Priority m
      = (let urgency := http.Get (Header request) "Urgency" in
         if decide (urgency = "very-low" ∨ urgency = "low")
         then "normal" else "high").
Proof.
  intros Hq components.
  apply handler_queued_inv in Hq.
  destruct Hq as (tok & pk & salt & Hc2 & Hc3 & Htok & Hce & Hk & Hs & Hfin).
  fold components in Hc2, Hc3, Hfin.
  match type of Hfin with
  | _ = finish _ ?msg =>
      destruct (finish_fields request msg)
        as (m' & Hm' & HTo & HData & HTitle & HTTL & HPrio)
  end.
  rewrite Hm' in Hfin. injection Hfin as Hfin. subst m'.
  exists pk, salt.
  assert (HTo' : To m = tok).
  { etransitivity; [exact HTo |].
    destruct (decide (4 < length components)%nat); reflexivity. }
  rewrite HTo'.
  repeat split; try assumption.
  - etransitivity; [exact HData |].
    destruct (decide (4 < length components)%nat); reflexivity.
  - etransitivity; [exact HTitle |].
    destruct (decide (4 < length components)%nat); reflexivity.
  - etransitivity; [exact HTTL |]. cbv zeta.
    destruct (decide (4 < length components)%nat); reflexivity.
Qed.

Lemma Get_absent (header : http.Header) (name : string) :
  header !! http.CanonicalMIMEHeaderKey name = None → http.Get header name = "".
Proof. intros H. unfold http.Get. rewrite H. reflexivity. Qed.

Lemma encodedValue_sample :
  encodedValue (Examples.headers Examples.aesgcm) "Crypto-Key" "dh"
  = Some (inl "nm=QN1q")
  ∧ encodedValue (Examples.headers Examples.aesgcm) "Encryption" "salt"
    = Some (inl "0000")
  ∧ http.Get (Examples.headers Examples.aesgcm) "Content-Encoding" = "aesgcm".
Proof. repeat split; vm_compute; reflexivity. Qed.

(** With the sample headers, a path that is accepted leads to the channel. *)
Lemma handler_sample_queued (p : string) (deviceToken : string) :
  let components := GoStrings.Split p "/" in
  components !! 2%nat = Some "fcm" →
  components !! 3%nat = Some deviceToken →
  deviceToken ≠ "" →
  ∃ m, handler {| URL_Path := p; Header := Examples.headers Examples.aesgcm;
                  Body := [] |} = Some (Queued m).
Proof.
  intros components Hc2 Hc3 Htok.
  rewrite (handler_path_ok _ deviceToken) by assumption.
  cbn [Header].
  destruct encodedValue_sample as (-> & -> & ->).
  rewrite decide_True by reflexivity. cbn [mbind option_bind].
  edestruct finish_fields as (m & -> & _). exists m. reflexivity.
Qed.

(** On a path that it accepts, the handler panics, answers 415, answers 400
    for one of the two crypto headers, or puts a message on the channel. *)
Lemma handler_path_ok_outcomes (request : Request) (deviceToken : string) :
  let components := GoStrings.Split (URL_Path request) "/" in
  components !! 2%nat = Some "fcm" →
  components !! 3%nat = Some deviceToken →
  deviceToken ≠ "" →
  handler request = None
  ∨ handler request = Some (Error 415 "Unsupported content encoding")
  ∨ handler request = Some (Error 400 "Error retrieving public key")
  ∨ handler request = Some (Error 400 "Error retrieving salt")
  ∨ ∃ m, handler request = Some (Queued m).
Proof.
  intros components Hc2 Hc3 Htok.
  rewrite (handler_path_ok request deviceToken Hc2 Hc3 Htok).
  destruct (decide _) as [_ | _]; [| right; left; reflexivity].
  destruct (encodedValue (Header request) "Crypto-Key" "dh")
    as [[publicKey | e] |]; cbn [mbind option_bind];
    [| right; right; left; reflexivity | left; reflexivity].
  destruct (encodedValue (Header request) "Encryption" "salt")
    as [[salt | e] |]; cbn [mbind option_bind];
    [| right; right; right; left; reflexivity | left; reflexivity].
  edestruct finish_fields as (m & -> & _).
  right; right; right; right. exists m. reflexivity.
Qed.

(** ** The claims on the path *)

(** C4. The handler splits the path on [/].  A path is answered with 400 Bad
    Request, whatever the headers and the body, exactly when it has fewer
    than four segments, or its segment 2 is not [fcm], or its segment 3 is
    empty; a request gets the message of one of these three errors exactly
    when its path has that defect.  Otherwise segment 3 is the device token
    of the message, and the data field [x] is the join with [/] of the
    segments from the fifth on when there are more than four, and is absent
    when there are four. *)
Theorem handler_path_validation (p : string) :
  let components := GoStrings.Split p "/" in
  let handle := λ header body,
    handler {| URL_Path := p; Header := header; Body := body |} in
  ((∀ header body, ∃ msg, handle header body = Some (Error 400 msg))
   ↔ ((length components < 4)%nat
      ∨ components !! 2%nat ≠ Some "fcm"
      ∨ components !! 3%nat = Some ""))
  ∧ (∀ header body,
       (handle header body = Some (Error 400 "Invalid URL path")
        ↔ (length components < 4)%nat)
       ∧ (handle header body = Some (Error 400 "Invalid target environment")
          ↔ (4 ≤ length components)%nat ∧ components !! 2%nat ≠ Some "fcm")
       ∧ (handle header body = Some (Error 400 "Missing device token")
          ↔ components !! 2%nat = Some "fcm" ∧ components !! 3%nat = Some ""))
  ∧ (∀ header body m,
       handle header body = Some (Queued m) →
       components !! 3%nat = Some (To m)
       ∧ Data m !! "x"
         = if decide (4 < length components)%nat
           then Some (GoStrings.Join (drop 4 components) "/")
           else None).
Proof.
  intros components handle.
  assert (Hmsgs : ∀ header body,
       (handle header body = Some (Error 400 "Invalid URL path")
        ↔ (length components < 4)%nat)
       ∧ (handle header body = Some (Error 400 "Invalid target environment")
          ↔ (4 ≤ length components)%nat ∧ components !! 2%nat ≠ Some "fcm")
       ∧ (handle header body = Some (Error 400 "Missing device token")
          ↔ components !! 2%nat = Some "fcm" ∧ components !! 3%nat = Some "")).
  { intros header body.
    set (request := {| URL_Path := p; Header := header; Body := body |}).
    change (handle header body) with (handler request).
    destruct (path_cases p)
      as [Hs | [[Hl Hw] | [[Hf Hm] | (tok & Hc2 & Hc3 & Htok)]]].
    - rewrite (handler_short_path request Hs).
      split; [| split]; split.
      + intros _. exact Hs.
      + reflexivity.
      + discriminate.
      + intros [Hlen _]. fold components in Hs. lia.
      + discriminate.
      + intros [_ Hc3]. apply lookup_lt_Some in Hc3.
        fold components in Hs. lia.
    - rewrite (handler_wrong_environment request Hl Hw).
      split; [| split]; split.
      + discriminate.
      + intros Hlen. fold components in Hl. lia.
      + intros _. split; assumption.
      + reflexivity.
      + discriminate.
      + intros [Hc2 _]. contradiction.
    - rewrite (handler_missing_token request Hf Hm).
      apply lookup_lt_Some in Hm as Hlen. fold components in Hlen.
      split; [| split]; split.
      + discriminate.
      + intros Hlt. lia.
      + discriminate.
      + intros [_ Hw]. contradiction.
      + intros _. split; assumption.
      + reflexivity.
    - apply lookup_lt_Some in Hc3 as Hlen.
      assert (Hno : ∀ msg,
                msg = "Invalid URL path" ∨ msg = "Invalid target environment"
                ∨ msg = "Missing device token" →
                handler request ≠ Some (Error 400 msg)).
      { intros msg Hmsg Heq.
        destruct (handler_path_ok_outcomes request tok Hc2 Hc3 Htok)
          as [Ho | [Ho | [Ho | [Ho | [m Ho]]]]];
          rewrite Ho in Heq; try discriminate Heq;
          injection Heq as <-;
          destruct Hmsg as [Hmsg | [Hmsg | Hmsg]]; discriminate Hmsg. }
      fold components in Hlen.
      split; [| split]; split.
      + intros Heq. exfalso. apply (Hno "Invalid URL path"); [| exact Heq].
        left. reflexivity.
      + intros Hlt. lia.
      + intros Heq. exfalso.
        apply (Hno "Invalid target environment"); [| exact Heq].
        right. left. reflexivity.
      + intros [_ Hw]. contradiction.
      + intros Heq. exfalso.
        apply (Hno "Missing device token"); [| exact Heq].
        right. right. reflexivity.
      + intros [_ Hm]. fold components in Hc3. rewrite Hc3 in Hm.
        injection Hm as ->. exfalso. apply Htok. reflexivity. }
  split; [| split; [exact Hmsgs |]].
  - split.
    + intros Hall.
      destruct (path_cases p)
        as [Hs | [[Hl Hw] | [[Hf Hm] | (tok & Hc2 & Hc3 & Htok)]]].
      * left. exact Hs.
      * right. left. exact Hw.
      * right. right. exact Hm.
      * destruct (handler_sample_queued p tok Hc2 Hc3 Htok) as [m Hm].
        destruct (Hall (Examples.headers Examples.aesgcm) []) as [msg Hmsg].
        unfold handle in Hmsg. rewrite Hm in Hmsg. discriminate.
    + intros Hbad header body.
      destruct (Hmsgs header body) as (H1 & H2 & H3).
      destruct (path_cases p)
        as [Hs | [[Hl Hw] | [[Hf Hm] | (tok & Hc2 & Hc3 & Htok)]]].
      * eexists. apply H1, Hs.
      * eexists. apply H2. split; assumption.
      * eexists. apply H3. split; assumption.
      * exfalso. apply lookup_lt_Some in Hc3 as Hlen.
        fold components in Hlen.
        destruct Hbad as [Hb | [Hb | Hb]]; [lia | contradiction |].
        fold components in Hc3. congruence.
  - intros header body m Hq.
    apply handler_queued_fields in Hq.
    destruct Hq as (pk & salt & _ & Hc3 & _ & _ & _ & _ & HData & _).
    cbn [URL_Path] in Hc3, HData. fold components in Hc3, HData.
    split; [exact Hc3 |].
    rewrite HData.
    destruct (decide (4 < length components)%nat); cbn [id].
    + rewrite !lookup_insert_ne by discriminate.
      apply lookup_insert_eq.
    + rewrite !lookup_insert_ne by discriminate.
      apply lookup_singleton_ne. discriminate.
Qed.

(** The paths of the specification: a token alone, a token with a suffix, a
    wrong environment and an empty token. *)
Lemma handler_path_validation_witness :
  (∃ m, handler Examples.plain = Some (Queued m)
        ∧ Some "ABC123" = Some (To m) ∧ Data m !! "x" = None)
  ∧ (∃ m, handler Examples.with_extra = Some (Queued m)
          ∧ Some "ABC123" = Some (To m) ∧ Data m !! "x" = Some "foo/bar")
  ∧ handler (Examples.request "/relay-to/other/ABC" Examples.aesgcm)
    = Some (Error 400 "Invalid target environment")
  ∧ handler (Examples.request "/relay-to/fcm/" Examples.aesgcm)
    = Some (Error 400 "Missing device token").
Proof.
  split; [| split; [| split]].
  - eexists. split; [vm_compute; reflexivity |].
    destruct (handler_path_validation "/relay-to/fcm/ABC123") as (_ & _ & H).
    exact (H (Examples.headers Examples.aesgcm) [x48; x69] _
             ltac:(vm_compute; reflexivity)).
  - eexists. split; [vm_compute; reflexivity |].
    destruct (handler_path_validation "/relay-to/fcm/ABC123/foo/bar")
      as (_ & _ & H).
    exact (H (Examples.headers Examples.aesgcm) [x48; x69] _
             ltac:(vm_compute; reflexivity)).
  - destruct (handler_path_validation "/relay-to/other/ABC") as (_ & H & _).
    apply H. split; [vm_compute; lia | vm_compute; discriminate].
  - destruct (handler_path_validation "/relay-to/fcm/") as (_ & H & _).
    apply H. split; vm_compute; reflexivity.
Defined.

(** ** The claims on the headers *)

(** The content encoding in the first version of the file: for every request
    whose path is accepted, the handler answers 415 Unsupported Media Type
    if and only if the [Content-Encoding] header is not the literal
    [aesgcm]; a request without the header is one of them.  In that case
    nothing is put on the channel.  The second version does not keep this
    on paths with a suffix: see its properties below. *)
Theorem handler_content_encoding (request : Request) (deviceToken : string) :
  let components := GoStrings.Split (URL_Path request) "/" in
  let encoding := http.Get (Header request) "Content-Encoding" in
  components !! 2%nat = Some "fcm" →
  components !! 3%nat = Some deviceToken →
  deviceToken ≠ "" →
  ((∃ msg, handler request = Some (Error 415 msg)) ↔ encoding ≠ "aesgcm")
  ∧ (encoding ≠ "aesgcm" →
     handler request = Some (Error 415 "Unsupported content encoding")
     ∧ ∀ m, handler request ≠ Some (Queued m))
  ∧ (Header request !! "Content-Encoding" = None → encoding ≠ "aesgcm").
Proof.
  intros components encoding Hc2 Hc3 Htok.
  pose proof (handler_path_ok request deviceToken Hc2 Hc3 Htok) as Hh.
  fold encoding in Hh.
  assert (Hne : encoding ≠ "aesgcm" →
                handler request = Some (Error 415 "Unsupported content encoding")).
  { intros Hne. rewrite Hh, decide_False by exact Hne. reflexivity. }
  split; [split |split].
  - intros [msg Hmsg] Heq. rewrite Hh, decide_True in Hmsg by exact Heq.
    destruct (encodedValue (Header request) "Crypto-Key" "dh")
      as [[publicKey | e] |]; cbn [mbind option_bind] in Hmsg;
      [| discriminate Hmsg | discriminate Hmsg].
    destruct (encodedValue (Header request) "Encryption" "salt")
      as [[salt | e] |]; cbn [mbind option_bind] in Hmsg;
      [| discriminate Hmsg | discriminate Hmsg].
    edestruct finish_fields as (m & Hm & _). rewrite Hm in Hmsg.
    discriminate Hmsg.
  - intros Hn. eexists. apply Hne, Hn.
  - intros Hn. split; [apply Hne, Hn |].
    intros m Hm. rewrite (Hne Hn) in Hm. discriminate.
  - intros Habs. unfold encoding.
    rewrite Get_absent by exact Habs. discriminate.
Qed.

(** A request without the header and a request with [gzip] get 415. *)
Lemma handler_content_encoding_witness :
  handler Examples.no_encoding
  = Some (Error 415 "Unsupported content encoding")
  ∧ handler Examples.gzip = Some (Error 415 "Unsupported content encoding").
Proof.
  split.
  - apply (handler_content_encoding Examples.no_encoding "ABC123");
      vm_compute; try reflexivity; discriminate.
  - apply (handler_content_encoding Examples.gzip "ABC123");
      vm_compute; try reflexivity; discriminate.
Defined.

(** C8. The priority of a message on the channel is [normal] if and only if
    the [Urgency] header is [very-low] or [low]; it is [high] for every other
    value of the header, and when there is no such header. *)
Theorem handler_priority (request : Request) (m : Message) :
  let urgency := http.Get (Header request) "Urgency" in
  handler request = Some (Queued m) →
  (Priority m = "normal" ↔ urgency = "very-low" ∨ urgency = "low")
  ∧ (¬ (urgency = "very-low" ∨ urgency = "low") → Priority m = "high")
  ∧ (Header request !! "Urgency" = None → Priority m = "high").
Proof.
  intros urgency Hq.
  apply handler_queued_fields in Hq.
  destruct Hq as (pk & salt & _ & _ & _ & _ & _ & _ & _ & _ & _ & HPrio).
  cbv zeta in HPrio. fold urgency in HPrio. rewrite HPrio.
  destruct (decide (urgency = "very-low" ∨ urgency = "low")) as [Hlow | Hhigh].
  - repeat split; try (intros; assumption || reflexivity || contradiction).
    intros Habs. exfalso. unfold urgency in Hlow.
    rewrite Get_absent in Hlow by exact Habs.
    destruct Hlow; discriminate.
  - repeat split; try (intros; reflexivity || contradiction).
    intros; discriminate.
Qed.

(** [Urgency: low] gives [normal]; [Urgency: high] and no header give
    [high]. *)
Lemma handler_priority_witness :
  (∃ m, handler Examples.urgency_low = Some (Queued m) ∧ Priority m = "normal")
  ∧ (∃ m, handler Examples.urgency_high = Some (Queued m) ∧ Priority m = "high")
  ∧ (∃ m, handler Examples.plain = Some (Queued m) ∧ Priority m = "high").
Proof.
  split; [| split].
  - eexists. split; [vm_compute; reflexivity |].
    destruct (handler_priority Examples.urgency_low _
                ltac:(vm_compute; reflexivity)) as (H & _ & _).
    apply H. right. vm_compute. reflexivity.
  - eexists. split; [vm_compute; reflexivity |].
    destruct (handler_priority Examples.urgency_high _
                ltac:(vm_compute; reflexivity)) as (_ & H & _).
    apply H. intros [E | E]; vm_compute in E; discriminate E.
  - eexists. split; [vm_compute; reflexivity |].
    destruct (handler_priority Examples.plain _
                ltac:(vm_compute; reflexivity)) as (_ & _ & H).
    apply H. vm_compute. reflexivity.
Defined.

(** ** Splitting strings *)

Lemma pieces_cons (f : ascii → bool) (s : string) :
  ∃ p ps, GoStrings.pieces f s = p :: ps.
Proof.
  destruct s as [| c s]; cbn [GoStrings.pieces]; [eauto |].
  destruct (f c); [eauto |].
  destruct (GoStrings.pieces f s); eauto.
Qed.

Lemma pieces_app_sep (f : ascii → bool) (a b : string) (c : ascii) :
  f c = true →
  GoStrings.pieces f (a +:+ String c b)
  = GoStrings.pieces f a ++ GoStrings.pieces f b.
Proof.
  intros Hc. induction a as [| x a IH].
  - change ("" +:+ String c b) with (String c b).
    cbn [GoStrings.pieces]. rewrite Hc. reflexivity.
  - change (String x a +:+ String c b) with (String x (a +:+ String c b)).
    cbn [GoStrings.pieces]. rewrite IH.
    destruct (f x); [reflexivity |].
    destruct (pieces_cons f a) as (p & ps & ->). reflexivity.
Qed.

Lemma pieces_no_sep (f : ascii → bool) (s : string) :
  (∀ c, f c = true → GoStrings.has_byte c s = false) →
  GoStrings.pieces f s = [s].
Proof.
  induction s as [| x s IH]; intros Hno; [reflexivity |].
  cbn [GoStrings.pieces].
  destruct (f x) eqn:Hx.
  - specialize (Hno x Hx). cbn [GoStrings.has_byte] in Hno.
    rewrite bool_decide_eq_true_2 in Hno by reflexivity. discriminate.
  - rewrite IH; [reflexivity |].
    intros c Hc. specialize (Hno c Hc). cbn [GoStrings.has_byte] in Hno.
    apply orb_false_elim in Hno. apply Hno.
Qed.

Lemma sep_byte (sep c : ascii) :
  bool_decide (c = sep) = true → ∀ s, GoStrings.has_byte sep s = GoStrings.has_byte c s.
Proof. intros H s. apply bool_decide_eq_true_1 in H. subst c. reflexivity. Qed.

Lemma Split_no_sep (s : string) (sep : ascii) :
  GoStrings.has_byte sep s = false → GoStrings.Split s sep = [s].
Proof.
  intros H. apply pieces_no_sep. intros c Hc.
  rewrite <- (sep_byte sep c Hc). exact H.
Qed.

Lemma Split_app_sep (a b : string) (sep : ascii) :
  GoStrings.Split (a +:+ String sep b) sep
  = GoStrings.Split a sep ++ GoStrings.Split b sep.
Proof. apply pieces_app_sep. apply bool_decide_eq_true_2. reflexivity. Qed.

Lemma FieldsFunc_app_sep (f : ascii → bool) (a b : string) (c : ascii) :
  f c = true →
  GoStrings.FieldsFunc (a +:+ String c b) f
  = GoStrings.FieldsFunc a f ++ GoStrings.FieldsFunc b f.
Proof.
  intros Hc. unfold GoStrings.FieldsFunc.
  rewrite pieces_app_sep by exact Hc. apply filter_app.
Qed.

Lemma FieldsFunc_one (f : ascii → bool) (s : string) :
  s ≠ "" →
  (∀ c, f c = true → GoStrings.has_byte c s = false) →
  GoStrings.FieldsFunc s f = [s].
Proof.
  intros Hne Hno. unfold GoStrings.FieldsFunc.
  rewrite pieces_no_sep by exact Hno.
  cbn [filter list_filter]. rewrite decide_True by exact Hne. reflexivity.
Qed.

Lemma has_byte_app (c : ascii) (a b : string) :
  GoStrings.has_byte c (a +:+ b)
  = GoStrings.has_byte c a || GoStrings.has_byte c b.
Proof.
  induction a as [| x a IH]; [reflexivity |].
  change (String x a +:+ b) with (String x (a +:+ b)).
  cbn [GoStrings.has_byte]. rewrite IH. apply orb_assoc.
Qed.

(** ** The header parsers *)

Lemma for_range_app {A S} (l1 l2 : list A) (body : A → S → option S) (s : S) :
  for_range (l1 ++ l2) body s = for_range l1 body s ≫= for_range l2 body.
Proof.
  revert s. induction l1 as [| x l1 IH]; intros s; [reflexivity |].
  cbn [app for_range]. destruct (body x s) as [s' |]; [| reflexivity].
  cbn [mbind option_bind]. apply IH.
Qed.

(** A panic in the loop goes through the rest of the loop. *)
Lemma for_range_panic {A S} (l : list A) (body : A → S → option S) (x : A) :
  x ∈ l → (∀ s, body x s = None) → ∀ s, for_range l body s = None.
Proof.
  intros Hin Hx. induction l as [| y l IH]; intros s.
  - inversion Hin.
  - cbn [for_range]. apply elem_of_cons in Hin as [-> | Hin].
    + rewrite Hx. reflexivity.
    + destruct (body y s); [apply IH, Hin | reflexivity].
Qed.

(** An entry without [=] has no [parts[1]]. *)
Lemma parse_entry_no_equals (entry : string) (m : gmap string string) :
  GoStrings.has_byte "=" entry = false → parse_entry entry m = None.
Proof.
  intros H. unfold parse_entry. rewrite Split_no_sep by exact H. reflexivity.
Qed.

(** An entry with [=]: the key is what comes before the first [=], the value
    what comes between the first [=] and the second, when there is one. *)
Lemma parse_entry_equals (k v rest : string) (m : gmap string string) :
  GoStrings.has_byte "=" k = false →
  GoStrings.has_byte "=" v = false →
  parse_entry (k +:+ "=" +:+ v +:+ "=" +:+ rest) m = Some (<[k := v]> m).
Proof.
  intros Hk Hv. unfold parse_entry.
  change (k +:+ "=" +:+ v +:+ "=" +:+ rest)
    with (k +:+ String "=" (v +:+ String "=" rest)).
  rewrite !Split_app_sep, (Split_no_sep k), (Split_no_sep v) by assumption.
  reflexivity.
Qed.

(** A header with an entry that has no [=] makes [parseKeyValues] panic. *)
Lemma parseKeyValues_malformed (values entry : string) :
  entry ∈ GoStrings.FieldsFunc values (λ c, bool_decide (c = ";"%char)) →
  GoStrings.has_byte "=" entry = false →
  parseKeyValues values = None.
Proof.
  intros Hin Hno. unfold parseKeyValues.
  apply (for_range_panic _ _ entry Hin).
  intros m. apply parse_entry_no_equals, Hno.
Qed.

Lemma encodedValue_inl (header : http.Header) (name key s : string) :
  encodedValue header name key = Some (inl s) →
  ∃ (keyValues : gmap string string) (value : string) (bytes : list byte),
    parseKeyValues (http.Get header name) = Some keyValues
    ∧ keyValues !! key = Some value
    ∧ base64.DecodeString value = Some bytes
    ∧ encode85 bytes = Some s.
Proof.
  unfold encodedValue. intros H.
  destruct (parseKeyValues (http.Get header name)) as [kv |] eqn:Hkv;
    [| discriminate H].
  cbn [mbind option_bind] in H.
  destruct (kv !! key) as [value |] eqn:Hvalue; [| discriminate H].
  destruct (base64.DecodeString value) as [bytes |] eqn:Hbytes;
    [| discriminate H].
  destruct (encode85 bytes) as [s' |] eqn:Hs; [| discriminate H].
  cbn [mbind option_bind] in H. injection H as ->.
  exists kv, value, bytes. repeat split; assumption.
Qed.

(** [encodedValue], case by case; the encoder never panics. *)
Lemma encodedValue_cases (header : http.Header) (name key : string) :
  encodedValue header name key
  = match parseKeyValues (http.Get header name) with
    | None => None
    | Some keyValues =>
        match keyValues !! key with
        | None =>
            Some (inr (errorString
                         ("Value " +:+ key +:+ " not found in header " +:+ name)))
        | Some value =>
            match base64.DecodeString value with
            | None => Some (inr CorruptInputError)
            | Some bytes => Some (inl (Reference.encode bytes))
            end
        end
    end.
Proof.
  unfold encodedValue.
  destruct (parseKeyValues (http.Get header name)) as [kv |]; [| reflexivity].
  cbn [mbind option_bind].
  destruct (kv !! key) as [value |]; [| reflexivity].
  destruct (base64.DecodeString value) as [bytes |]; [| reflexivity].
  rewrite encode85_reference. reflexivity.
Qed.

(** What the handler does with the two crypto headers of a request that it
    has accepted so far: an error of [encodedValue] is answered with 400, a
    panic of [encodedValue] is a panic of the handler. *)
Lemma handler_crypto_errors (request : Request) (deviceToken : string) :
  let components := GoStrings.Split (URL_Path request) "/" in
  let dh := encodedValue (Header request) "Crypto-Key" "dh" in
  let salt := encodedValue (Header request) "Encryption" "salt" in
  components !! 2%nat = Some "fcm" →
  components !! 3%nat = Some deviceToken →
  deviceToken ≠ "" →
  http.Get (Header request) "Content-Encoding" = "aesgcm" →
  ((∃ e, dh = Some (inr e)) →
   handler request = Some (Error 400 "Error retrieving public key"))
  ∧ ((∃ k, dh = Some (inl k)) → (∃ e, salt = Some (inr e)) →
     handler request = Some (Error 400 "Error retrieving salt"))
  ∧ (dh = None → handler request = None)
  ∧ ((∃ k, dh = Some (inl k)) → salt = None → handler request = None).
Proof.
  intros components dh salt Hc2 Hc3 Htok Hce.
  rewrite (handler_path_ok request deviceToken Hc2 Hc3 Htok).
  rewrite decide_True by exact Hce. fold dh salt.
  repeat split.
  - intros [e ->]. reflexivity.
  - intros [k ->] [e ->]. reflexivity.
  - intros ->. reflexivity.
  - intros [k ->] ->. reflexivity.
Qed.

(** ** The claims on the crypto headers *)

(** C3, at a request on which the handler does not do what the claim says.
    The request has the content encoding [aesgcm] and the header
    [Crypto-Key: dh=SGVsbG8;flag], whose second entry has no [=]:
    [parseKeyValues] indexes [parts[1]] of a slice of length one and panics,
    so that [encodedValue] returns no error and the handler writes no
    response, where the claim has a Bad Request error. *)
Theorem handler_malformed_entry_panics :
  http.Get (Header Examples.malformed_entry) "Crypto-Key" = "dh=SGVsbG8;flag"
  ∧ parseKeyValues "dh=SGVsbG8;flag" = None
  ∧ encodedValue (Header Examples.malformed_entry) "Crypto-Key" "dh" = None
  ∧ handler Examples.malformed_entry = None.
Proof.
  split; [vm_compute; reflexivity |].
  split.
  - apply (parseKeyValues_malformed _ "flag"); [| reflexivity].
    change (GoStrings.FieldsFunc _ _) with ["dh=SGVsbG8"; "flag"].
    apply elem_of_cons. right. apply elem_of_cons. left. reflexivity.
  - split; vm_compute; reflexivity.
Qed.

(** C10. In a header entry [key=value1=value2], with more than one [=],
    [parseKeyValues] maps the key to the text between the first [=] and the
    second, whatever follows the second; the entry may come after other
    entries, and then replaces what they gave for the key.  So a base64url
    value with padding, as in [dh=SGVsbG8=], loses its padding and is
    decoded, where the padded value itself is rejected by the decoder. *)
Theorem parseKeyValues_second_equals :
  (∀ (pre key value1 value2 : string) (m : gmap string string),
     GoStrings.has_byte "=" key = false →
     GoStrings.has_byte "=" value1 = false →
     GoStrings.has_byte ";" key = false →
     GoStrings.has_byte ";" value1 = false →
     GoStrings.has_byte ";" value2 = false →
     parseKeyValues (key +:+ "=" +:+ value1 +:+ "=" +:+ value2)
     = Some {[ key := value1 ]}
     ∧ (parseKeyValues pre = Some m →
        parseKeyValues
          (pre +:+ ";" +:+ key +:+ "=" +:+ value1 +:+ "=" +:+ value2)
        = Some (<[ key := value1 ]> m)))
  ∧ parseKeyValues "dh=SGVsbG8=" = Some {[ "dh" := "SGVsbG8" ]}
  ∧ base64.DecodeString "SGVsbG8=" = None
  ∧ base64.DecodeString "SGVsbG8" = Some [x48; x65; x6c; x6c; x6f]
  ∧ encode85 [x48; x65; x6c; x6c; x6f] = Some "nm=QN1q"
  ∧ encodedValue (Header Examples.padded_dh) "Crypto-Key" "dh"
    = Some (inl "nm=QN1q")
  ∧ (∃ m, handler Examples.padded_dh = Some (Queued m)
          ∧ Data m !! "k" = Some "nm=QN1q").
Proof.
  split;
    [| repeat split; try (vm_compute; reflexivity);
       eexists; split; vm_compute; reflexivity].
  intros pre key value1 value2 m Hk Hv Hsk Hsv Hsr.
  set (entry := key +:+ "=" +:+ value1 +:+ "=" +:+ value2).
  set (f := λ c : ascii, bool_decide (c = ";"%char)).
  assert (Hone : GoStrings.FieldsFunc entry f = [entry]).
  { apply FieldsFunc_one.
    - unfold entry. destruct key; discriminate.
    - intros c Hc. rewrite <- (sep_byte ";" c Hc). unfold entry.
      rewrite !has_byte_app, Hsk, Hsv, Hsr. reflexivity. }
  split.
  - unfold parseKeyValues. fold f. rewrite Hone. cbn [for_range].
    unfold entry. rewrite parse_entry_equals by assumption. reflexivity.
  - intros Hpre. unfold parseKeyValues in *. fold f in Hpre |- *.
    fold entry.
    change (pre +:+ ";" +:+ entry) with (pre +:+ String ";" entry).
    rewrite FieldsFunc_app_sep by reflexivity.
    rewrite for_range_app, Hpre, Hone. cbn [mbind option_bind for_range].
    unfold entry. rewrite parse_entry_equals by assumption. reflexivity.
Qed.

(** The entry [dh=SGVsbG8=] after an entry [keyid=p256]. *)
Lemma parseKeyValues_second_equals_witness :
  parseKeyValues "keyid=p256;dh=SGVsbG8="
  = Some (<[ "dh" := "SGVsbG8" ]> {[ "keyid" := "p256" ]}).
Proof.
  destruct parseKeyValues_second_equals as [H _].
  apply (H "keyid=p256" "dh" "SGVsbG8" "" {[ "keyid" := "p256" ]});
    vm_compute; reflexivity.
Defined.

(** ** The claims on the message *)

(** C6 as it is stated fails on a path that ends in a slash: the path
    [/relay-to/fcm/ABC123/] has five segments, the last one empty, so that
    the extra string is empty and the message has the data key [x] all the
    same, with the empty string as its value. *)
Lemma message_data_x_counterexample :
  ∃ m : Message,
    handler Examples.trailing_slash = Some (Queued m)
    ∧ GoStrings.Split (URL_Path Examples.trailing_slash) "/"
      = [""; "relay-to"; "fcm"; "ABC123"; ""]
    ∧ GoStrings.Join
        (drop 4 (GoStrings.Split (URL_Path Examples.trailing_slash) "/")) "/"
      = ""
    ∧ Data m !! "x" = Some ""
    ∧ ¬ (is_Some (Data m !! "x")
         ↔ GoStrings.Join
             (drop 4 (GoStrings.Split (URL_Path Examples.trailing_slash) "/"))
             "/" ≠ "").
Proof.
  eexists. split; [vm_compute; reflexivity |].
  split; [vm_compute; reflexivity |].
  split; [vm_compute; reflexivity |].
  split; [vm_compute; reflexivity |].
  intros [H _]. apply H; [eexists |]; vm_compute; reflexivity.
Qed.

(** C6, amended.  Every message on the channel carries its data in one map
    from strings to strings: the key [p] holds the encoded body, the key [k]
    the encoded bytes of the [dh] value of [Crypto-Key], the key [s] the
    encoded bytes of the [salt] value of [Encryption]; the key [x] is there
    exactly when the path has more than four segments and then holds the
    join of the segments from the fifth on, which may be the empty string;
    there is no other key.  The title is the constant [title]. *)
Theorem handler_message_data (request : Request) (m : Message) :
  let components := GoStrings.Split (URL_Path request) "/" in
  let decoded := λ name key bytes,
    ∃ (keyValues : gmap string string) (value : string),
      parseKeyValues (http.Get (Header request) name) = Some keyValues
      ∧ keyValues !! key = Some value
      ∧ base64.DecodeString value = Some bytes in
  handler request = Some (Queued m) →
  Data m !! "p" = encode85 (Body request)
  ∧ (∃ bytes, decoded "Crypto-Key" "dh" bytes
              ∧ Data m !! "k" = encode85 bytes)
  ∧ (∃ bytes, decoded "Encryption" "salt" bytes
              ∧ Data m !! "s" = encode85 bytes)
  ∧ Data m !! "x"
    = (if decide (4 < length components)%nat
       then Some (GoStrings.Join (drop 4 components) "/")
       else None)
  ∧ (∀ key, key ∉ ["p"; "k"; "s"; "x"] → Data m !! key = None)
  ∧ Notification_Title m = title.
Proof.
  intros components decoded Hq.
  apply handler_queued_fields in Hq.
  destruct Hq
    as (pk & salt & _ & _ & _ & _ & Hk & Hs & HData & HTitle & _).
  fold components in HData.
  apply encodedValue_inl in Hk as (kv1 & v1 & b1 & Hkv1 & Hv1 & Hb1 & He1).
  apply encodedValue_inl in Hs as (kv2 & v2 & b2 & Hkv2 & Hv2 & Hb2 & He2).
  rewrite HData.
  split; [| split; [| split; [| split; [| split]]]].
  - rewrite encode85_reference.
    destruct (decide (4 < length components)%nat); cbn [id];
      rewrite !lookup_insert_ne by discriminate;
      apply lookup_singleton_eq.
  - exists b1. split; [exists kv1, v1; repeat split; assumption |].
    rewrite He1, lookup_insert_ne by discriminate. apply lookup_insert_eq.
  - exists b2. split; [exists kv2, v2; repeat split; assumption |].
    rewrite He2. apply lookup_insert_eq.
  - destruct (decide (4 < length components)%nat); cbn [id];
      rewrite !lookup_insert_ne by discriminate.
    + apply lookup_insert_eq.
    + apply lookup_singleton_ne. discriminate.
  - intros key Hkey.
    assert (Hp : "p" ≠ key ∧ "k" ≠ key ∧ "s" ≠ key ∧ "x" ≠ key).
    { repeat split; intros <-; apply Hkey;
        repeat (apply elem_of_cons; (left; reflexivity) || right). }
    destruct Hp as (Hp & Hk' & Hs' & Hx).
    destruct (decide (4 < length components)%nat); cbn [id];
      rewrite !lookup_insert_ne by assumption;
      apply lookup_singleton_ne; assumption.
  - exact HTitle.
Qed.

(** The message of the path that ends in a slash, and of a path without
    suffix. *)
Lemma handler_message_data_witness :
  (∃ m, handler Examples.trailing_slash = Some (Queued m)
        ∧ Data m !! "p" = encode85 [x48; x69]
        ∧ Data m !! "x" = Some ""
        ∧ Data m !! "y" = None)
  ∧ (∃ m, handler Examples.plain = Some (Queued m)
          ∧ Data m !! "x" = None
          ∧ Notification_Title m = title).
Proof.
  split.
  - eexists. split; [vm_compute; reflexivity |].
    destruct (handler_message_data Examples.trailing_slash _
                ltac:(vm_compute; reflexivity))
      as (Hp & _ & _ & Hx & Hno & _).
    split; [exact Hp |]. split; [exact Hx |].
    apply Hno. vm_compute. intros H.
    repeat (apply elem_of_cons in H as [H | H]; [discriminate H |]).
    inversion H.
  - eexists. split; [vm_compute; reflexivity |].
    destruct (handler_message_data Examples.plain _
                ltac:(vm_compute; reflexivity))
      as (_ & _ & _ & Hx & _ & HT).
    split; [exact Hx | exact HT].
Defined.

(** ** The claims on the time to live *)

Lemma Atoi_range (s : string) (n : Z) :
  strconv.Atoi s = Some n → GoInt.minInt ≤ n ≤ GoInt.maxInt.
Proof.
  unfold strconv.Atoi.
  match goal with
  | |- context [let '(neg, ds) := ?x in _] => destruct x as [neg ds]
  end.
  destruct (decide (ds = "")); [discriminate |].
  destruct (strconv.digits ds 0) as [v |]; [| discriminate].
  cbn [mbind option_bind].
  destruct (decide _) as [Hr | _]; [| discriminate].
  intros [= <-]. exact Hr.
Qed.

(** What the handler does with the [TTL] header of a message that reaches
    the channel: a value that [strconv.Atoi] rejects leaves the time to live
    unset, a number that is not negative is the time to live. *)
Lemma handler_ttl (request : Request) (m : Message) :
  let seconds := http.Get (Header request) "TTL" in
  handler request = Some (Queued m) →
  (seconds = "" → TimeToLive m = None)
  ∧ (strconv.Atoi seconds = None → TimeToLive m = None)
  ∧ (∀ ttl, seconds ≠ "" → strconv.Atoi seconds = Some ttl →
            TimeToLive m = Some (ttl mod 2 ^ 64))
  ∧ (∀ ttl, seconds ≠ "" → strconv.Atoi seconds = Some ttl → 0 ≤ ttl →
            TimeToLive m = Some ttl).
Proof.
  intros seconds Hq.
  apply handler_queued_fields in Hq.
  destruct Hq as (pk & salt & _ & _ & _ & _ & _ & _ & _ & _ & HTTL & _).
  cbv zeta in HTTL. fold seconds in HTTL. rewrite HTTL.
  pose proof (Atoi_range seconds) as Hrange.
  repeat split.
  - intros ->. reflexivity.
  - intros ->. destruct (decide _); reflexivity.
  - intros ttl Hne ->. rewrite decide_True by exact Hne. reflexivity.
  - intros ttl Hne Httl Hpos. rewrite decide_True by exact Hne.
    specialize (Hrange ttl Httl). rewrite Httl. f_equal.
    unfold GoInt.uint. apply Z.mod_small.
    unfold GoInt.maxInt in Hrange. lia.
Qed.

(** [TTL: 60] gives sixty seconds; [TTL: soon] is not an error and leaves
    the time to live unset. *)
Lemma handler_ttl_samples :
  (∃ m, handler Examples.ttl_60 = Some (Queued m) ∧ TimeToLive m = Some 60)
  ∧ (∃ m, handler Examples.ttl_soon = Some (Queued m) ∧ TimeToLive m = None).
Proof.
  split.
  - eexists. split; [vm_compute; reflexivity |].
    destruct (handler_ttl Examples.ttl_60 _ ltac:(vm_compute; reflexivity))
      as (_ & _ & _ & H).
    apply H; vm_compute; [discriminate | reflexivity | discriminate].
  - eexists. split; [vm_compute; reflexivity |].
    destruct (handler_ttl Examples.ttl_soon _ ltac:(vm_compute; reflexivity))
      as (_ & H & _).
    apply H. vm_compute. reflexivity.
Qed.

(** C7, at a request on which the handler does not do what the claim says.
    The header [TTL: -1] parses as the base-10 integer -1, and the handler
    converts it to an unsigned integer without looking at its sign: the time
    to live of the message is 2^64 - 1 seconds, not the number of the
    header. *)
Theorem handler_negative_ttl :
  http.Get (Header Examples.negative_ttl) "TTL" = "-1"
  ∧ strconv.Atoi "-1" = Some (-1)
  ∧ ∃ m, handler Examples.negative_ttl = Some (Queued m)
         ∧ TimeToLive m = Some 18446744073709551615.
Proof.
  split; [vm_compute; reflexivity |].
  split; [vm_compute; reflexivity |].
  eexists. split; vm_compute; reflexivity.
Qed.

(** * The handler of the second version *)

(** In the second version of the file the data of a message is in two maps:
    the literal of the message puts the key [p] in [message.Android.Data],
    and the handler then assigns the keys [x], [k] and [s] in [message.Data],
    a map that the literal has not made.  The first of these assignments
    panics, so that no request reaches the send on the channel. *)
Lemma messaging_handler_never_sends (request : Request)
    (m : Messaging.Message) :
  Messaging.handler request ≠ Some (Messaging.Send m).
Proof.
  unfold Messaging.handler. intros H.
  destruct (decide _) as [_ | _]; [discriminate H |].
  destruct (index _ 2) as [c2 |]; [| discriminate H].
  cbn [mbind option_bind] in H.
  destruct (decide (c2 ≠ "fcm")) as [_ | _]; [discriminate H |].
  destruct (index _ 3) as [deviceToken |]; [| discriminate H].
  cbn [mbind option_bind] in H.
  destruct (decide (deviceToken = "")) as [_ | _]; [discriminate H |].
  destruct (encode85 (Body request)) as [encodedString |]; [| discriminate H].
  cbn [mbind option_bind] in H.
  destruct (decide (4 < _)%nat) as [_ | _].
  - destruct (reslice _ 4) as [extra |]; discriminate H.
  - cbn [mbind option_bind] in H.
    destruct (decide _) as [_ | _]; [| discriminate H].
    destruct (encodedValue (Header request) "Crypto-Key" "dh")
      as [[publicKey | e] |]; discriminate H.
Qed.

(** The requests that the first version puts on the channel make the second
    version panic. *)
Lemma messaging_handler_panics (request : Request) (m : Message) :
  handler request = Some (Queued m) → Messaging.handler request = None.
Proof.
  intros Hq. apply handler_queued_fields in Hq.
  destruct Hq as (pk & salt & Hc2 & Hc3 & Htok & Hce & Hk & _).
  apply lookup_lt_Some in Hc3 as Hlen.
  unfold Messaging.handler.
  rewrite decide_False by lia.
  change 2 with (Z.of_nat 2). change 3 with (Z.of_nat 3).
  rewrite !index_lookup, Hc2. cbn [mbind option_bind].
  rewrite decide_False by (intros Hne; apply Hne; reflexivity).
  rewrite Hc3. cbn [mbind option_bind].
  rewrite decide_False by exact Htok.
  rewrite encode85_reference. cbn [mbind option_bind].
  destruct (decide (4 < _)%nat) as [_ | _].
  - rewrite reslice_ok by lia. reflexivity.
  - cbn [mbind option_bind]. rewrite decide_True by exact Hce.
    rewrite Hk. reflexivity.
Qed.

(** A path with a suffix panics before the handler reads any header. *)
Lemma messaging_handler_samples :
  Messaging.handler Examples.plain = None
  ∧ Messaging.handler Examples.with_extra = None
  ∧ Messaging.handler
      (Examples.request "/relay-to/fcm/ABC123/foo/bar"
         [("Content-Encoding", "gzip")]) = None
  ∧ Messaging.handler Examples.gzip
    = Some (Messaging.Error 415 "Unsupported content encoding").
Proof. repeat split; vm_compute; reflexivity. Qed.

(** In the second version a path that is accepted and has more than four
    segments makes the handler panic, on the assignment [message.Data["x"]],
    whatever the headers are: the switch on the content encoding is not
    reached. *)
Lemma messaging_handler_suffix_panics (request : Request)
    (deviceToken : string) :
  let components := GoStrings.Split (URL_Path request) "/" in
  components !! 2%nat = Some "fcm" →
  components !! 3%nat = Some deviceToken →
  deviceToken ≠ "" →
  (4 < length components)%nat →
  Messaging.handler request = None.
Proof.
  intros components Hc2 Hc3 Htok Hlen.
  unfold Messaging.handler. fold components.
  rewrite decide_False by lia.
  change 2 with (Z.of_nat 2). change 3 with (Z.of_nat 3).
  rewrite !index_lookup, Hc2. cbn [mbind option_bind].
  rewrite decide_False by (intros Hne; apply Hne; reflexivity).
  rewrite Hc3. cbn [mbind option_bind].
  rewrite decide_False by exact Htok.
  rewrite encode85_reference. cbn [mbind option_bind].
  rewrite decide_True by exact Hlen.
  rewrite reslice_ok by lia. reflexivity.
Qed.

(** C5, at a request on which the handler of the second version of the file
    does not do what the claim says.  The path [/relay-to/fcm/ABC123/foo/bar]
    passes the path validation and the content encoding is [gzip], not
    [aesgcm].  The first version answers 415.  The second version has put the
    key [p] in [message.Android.Data] and assigns [message.Data["x"]] for the
    suffix of the path, in a map that was never made: it panics before the
    switch on the content encoding, and no 415 is written. *)
Theorem messaging_handler_encoding_panics :
  GoStrings.Split (URL_Path Examples.gzip_with_extra) "/"
  = [""; "relay-to"; "fcm"; "ABC123"; "foo"; "bar"]
  ∧ http.Get (Header Examples.gzip_with_extra) "Content-Encoding" = "gzip"
  ∧ Messaging.handler Examples.gzip_with_extra = None
  ∧ handler Examples.gzip_with_extra
    = Some (Error 415 "Unsupported content encoding").
Proof.
  split; [vm_compute; reflexivity |].
  split; [vm_compute; reflexivity |].
  split.
  - apply (messaging_handler_suffix_panics Examples.gzip_with_extra "ABC123");
      vm_compute; try reflexivity; try discriminate; lia.
  - vm_compute. reflexivity.
Qed.

(** * Further properties of the encoder *)

Lemma digit_char_find (d : Z) :
  0 ≤ d < 85 →
  base64.find (Reference.digit_char d) Reference.alphabet 0 = Some d.
Proof.
  intros Hd.
  replace d with (Z.of_nat (Z.to_nat d)) at 2 by lia.
  unfold Reference.digit_char.
  assert (Hn : (Z.to_nat d < 85)%nat) by lia.
  generalize dependent (Z.to_nat d). intros n Hn.
  do 85 (destruct n as [| n]; [vm_compute; reflexivity |]).
  lia.
Qed.

Lemma digit_char_inj (d e : Z) :
  0 ≤ d < 85 → 0 ≤ e < 85 →
  Reference.digit_char d = Reference.digit_char e → d = e.
Proof.
  intros Hd He Heq.
  pose proof (digit_char_find d Hd) as H1.
  pose proof (digit_char_find e He) as H2.
  rewrite Heq in H1. congruence.
Qed.

Lemma digit_char_in (d : Z) :
  0 ≤ d < 85 → byte_of_ascii (Reference.digit_char d) ∈ z85digits.
Proof.
  intros Hd. pose proof (z85digits_lookup d Hd) as H.
  unfold index in H. rewrite decide_True in H by lia.
  apply list_elem_of_lookup. eauto.
Qed.

Lemma string_snoc_inj (a b : string) (x y : ascii) :
  a +:+ String x "" = b +:+ String y "" → a = b ∧ x = y.
Proof.
  revert b. induction a as [| c a IH]; intros [| c' b] H.
  - injection H as ->. split; reflexivity.
  - change ("" +:+ String x "") with (String x "") in H.
    change (String c' b +:+ String y "") with (String c' (b +:+ String y "")) in H.
    injection H as _ H. destruct b; discriminate H.
  - change ("" +:+ String y "") with (String y "") in H.
    change (String c a +:+ String x "") with (String c (a +:+ String x "")) in H.
    injection H as _ H. destruct a; discriminate H.
  - change (String c a +:+ String x "") with (String c (a +:+ String x "")) in H.
    change (String c' b +:+ String y "") with (String c' (b +:+ String y "")) in H.
    injection H as -> H. destruct (IH b H) as [-> ->]. split; reflexivity.
Qed.

Lemma string_app_inj (a b c d : string) :
  String.length a = String.length b →
  a +:+ c = b +:+ d → a = b ∧ c = d.
Proof.
  revert b. induction a as [| x a IH]; intros [| y b] Hlen H;
    try discriminate Hlen.
  - split; [reflexivity | exact H].
  - change (String x a +:+ c) with (String x (a +:+ c)) in H.
    change (String y b +:+ d) with (String y (b +:+ d)) in H.
    injection H as -> H. injection Hlen as Hlen.
    destruct (IH b Hlen H) as [-> ->]. split; reflexivity.
Qed.

(** Digits that fit are the digits of one number only. *)
Lemma digits_inj (n : nat) :
  ∀ v w : Z,
    0 ≤ v < 85 ^ Z.of_nat n → 0 ≤ w < 85 ^ Z.of_nat n →
    Reference.digits n v = Reference.digits n w → v = w.
Proof.
  induction n as [| n IH]; intros v w Hv Hw H.
  - change (85 ^ Z.of_nat 0) with 1 in *. lia.
  - rewrite Nat2Z.inj_succ, Z.pow_succ_r in Hv, Hw by lia.
    rewrite !digits_snoc in H by lia.
    apply string_snoc_inj in H as [Hhi Hlo].
    apply digit_char_inj in Hlo; try (apply Z.mod_pos_bound; lia).
    apply IH in Hhi.
    + rewrite (Z.div_mod v 85), (Z.div_mod w 85) by lia. congruence.
    + split; [apply Z.div_pos; lia | apply Z.div_lt_upper_bound; lia].
    + split; [apply Z.div_pos; lia | apply Z.div_lt_upper_bound; lia].
Qed.

Lemma of_byte_inj (a b : byte) : GoInt.of_byte a = GoInt.of_byte b → a = b.
Proof.
  unfold GoInt.of_byte. intros H. apply N2Z.inj in H.
  pose proof (Byte.of_to_N a) as Ha. rewrite H, Byte.of_to_N in Ha.
  congruence.
Qed.

Lemma big_endian_inj (a : list byte) :
  ∀ b : list byte,
    length a = length b →
    Reference.big_endian a = Reference.big_endian b → a = b.
Proof.
  induction a as [| x a IH] using rev_ind; intros b Hlen H.
  - destruct b; [reflexivity | discriminate Hlen].
  - induction b as [| y b _] using rev_ind.
    + rewrite length_app in Hlen. cbn [length] in Hlen. lia.
    + rewrite !length_app in Hlen. cbn [length] in Hlen.
      rewrite !big_endian_snoc in H.
      pose proof (of_byte_range x). pose proof (of_byte_range y).
      assert (Reference.big_endian a = Reference.big_endian b) as Hab by lia.
      assert (GoInt.of_byte x = GoInt.of_byte y) as Hxy by lia.
      apply of_byte_inj in Hxy as ->.
      rewrite (IH b) by (assumption || lia). reflexivity.
Qed.

(** The length of the encoding tells the length of the input. *)
Lemma length_encode_inj (a b : list byte) :
  String.length (Reference.encode a) = String.length (Reference.encode b) →
  length a = length b.
Proof.
  rewrite !length_encode.
  pose proof (Nat.div_mod_eq (length a) 4) as Ha.
  pose proof (Nat.mod_upper_bound (length a) 4) as Hra.
  pose proof (Nat.div_mod_eq (length b) 4) as Hb.
  pose proof (Nat.mod_upper_bound (length b) 4) as Hrb.
  set (ka := (length a / 4)%nat) in *. set (ra := (length a mod 4)%nat) in *.
  set (kb := (length b / 4)%nat) in *. set (rb := (length b mod 4)%nat) in *.
  repeat (destruct (decide _)); lia.
Qed.

Lemma encode_inj (n : nat) :
  ∀ a b : list byte,
    (length a ≤ n)%nat → length a = length b →
    Reference.encode a = Reference.encode b → a = b.
Proof.
  induction n as [| n IH]; intros a b Hn Hlen H.
  - destruct a; [| cbn [length] in Hn; lia].
    destruct b; [reflexivity | discriminate Hlen].
  - destruct a as [| a0 [| a1 [| a2 [| a3 a]]]];
      destruct b as [| b0 [| b1 [| b2 [| b3 b]]]];
      try discriminate Hlen; try reflexivity.
    + rewrite !encode_short in H by (cbn [length]; lia).
      apply big_endian_inj; [reflexivity |].
      apply (digits_inj 2); [| | exact H];
        match goal with |- context [Reference.big_endian ?l] =>
          pose proof (big_endian_range l) as Hr; cbn [length] in Hr;
          change (256 ^ Z.of_nat 1) with 256 in Hr;
          change (85 ^ Z.of_nat 2) with 7225; lia
        end.
    + rewrite !encode_short in H by (cbn [length]; lia).
      apply big_endian_inj; [reflexivity |].
      apply (digits_inj 3); [| | exact H];
        match goal with |- context [Reference.big_endian ?l] =>
          pose proof (big_endian_range l) as Hr; cbn [length] in Hr;
          change (256 ^ Z.of_nat 2) with 65536 in Hr;
          change (85 ^ Z.of_nat 3) with 614125; lia
        end.
    + rewrite !encode_short in H by (cbn [length]; lia).
      apply big_endian_inj; [reflexivity |].
      apply (digits_inj 4); [| | exact H];
        match goal with |- context [Reference.big_endian ?l] =>
          pose proof (big_endian_range l) as Hr; cbn [length] in Hr;
          change (256 ^ Z.of_nat 3) with 16777216 in Hr;
          change (85 ^ Z.of_nat 4) with 52200625; lia
        end.
    + rewrite !encode_block in H.
      apply string_app_inj in H as [Hd Hrest];
        [| rewrite !length_digits; reflexivity].
      cbn [length] in Hn, Hlen.
      apply (digits_inj 5) in Hd.
      * apply big_endian_inj in Hd; [| reflexivity].
        injection Hd as -> -> -> ->.
        rewrite (IH a b) by (assumption || lia). reflexivity.
      * pose proof (big_endian_range [a0; a1; a2; a3]) as Hr.
        cbn [length] in Hr. change (256 ^ Z.of_nat 4) with 4294967296 in Hr.
        change (85 ^ Z.of_nat 5) with 4437053125. lia.
      * pose proof (big_endian_range [b0; b1; b2; b3]) as Hr.
        cbn [length] in Hr. change (256 ^ Z.of_nat 4) with 4294967296 in Hr.
        change (85 ^ Z.of_nat 5) with 4437053125. lia.
Qed.

(** X1. [encode85] loses nothing: two byte sequences with the same encoding
    are the same sequence. *)
Theorem encode85_injective (a b : list byte) :
  encode85 a = encode85 b → a = b.
Proof.
  rewrite !encode85_reference. intros H. apply (inj Some) in H.
  apply (encode_inj (length a)); [lia | | exact H].
  apply length_encode_inj. rewrite H. reflexivity.
Qed.

Lemma encode85_injective_witness :
  encode85 [x01; x02; x03; x04; x05] = encode85 [x01; x02; x03; x04; x05]
  ∧ [x01; x02; x03; x04; x05] = [x01; x02; x03; x04; x05].
Proof.
  split; [vm_compute; reflexivity |].
  apply (encode85_injective [x01; x02; x03; x04; x05]).
  vm_compute. reflexivity.
Defined.

Lemma digits_alphabet (n : nat) (v : Z) :
  Forall (λ b, b ∈ z85digits)
         (String.list_byte_of_string (Reference.digits n v)).
Proof.
  induction n as [| n IH]; [constructor |].
  cbn [Reference.digits]. unfold String.list_byte_of_string.
  cbn [String.list_ascii_of_string map]. constructor; [| exact IH].
  apply digit_char_in. apply Z.mod_pos_bound. lia.
Qed.

Lemma encode_alphabet (n : nat) :
  ∀ bs : list byte,
    (length bs ≤ n)%nat →
    Forall (λ b, b ∈ z85digits)
           (String.list_byte_of_string (Reference.encode bs)).
Proof.
  induction n as [| n IH]; intros bs Hn.
  - destruct bs; [constructor | cbn [length] in Hn; lia].
  - destruct bs as [| b0 [| b1 [| b2 [| b3 bs]]]];
      try (rewrite encode_short by (cbn [length]; lia); apply digits_alphabet).
    + constructor.
    + rewrite encode_block, list_byte_of_string_app.
      apply Forall_app. split; [apply digits_alphabet |].
      apply IH. cbn [length] in Hn. lia.
Qed.

(** X2. The encoding is text of the alphabet: [encode85] returns, for every
    byte sequence, a string whose bytes are all among the 85 bytes of
    [z85digits]. *)
Theorem encode85_alphabet (bytes : list byte) :
  ∃ s : string,
    encode85 bytes = Some s
    ∧ Forall (λ b, b ∈ z85digits) (String.list_byte_of_string s).
Proof.
  exists (Reference.encode bytes). split; [apply encode85_reference |].
  apply (encode_alphabet (length bytes)). lia.
Qed.

(** X3. Encoding goes block by block: after a prefix whose length is a
    multiple of four, the encoding of the whole is the encoding of the prefix
    followed by the encoding of the rest. *)
Theorem encode85_app_aligned (a b : list byte) :
  (length a mod 4 = 0)%nat →
  encode85 (a ++ b)
  = (sa ← encode85 a; sb ← encode85 b; Some (sa +:+ sb)).
Proof.
  intros Hmod. rewrite !encode85_reference. cbn [mbind option_bind].
  f_equal.
  pose proof (Nat.div_mod_eq (length a) 4) as Hk. rewrite Hmod in Hk.
  rewrite (encode_take_drop (length a / 4) (a ++ b))
    by (rewrite length_app; lia).
  replace (4 * (length a / 4))%nat with (length a) by lia.
  rewrite take_app_length, drop_app_length. reflexivity.
Qed.

(** A prefix of one block; a prefix of one byte does not split off. *)
Lemma encode85_app_aligned_witness :
  encode85 ([x86; x4f; xd2; x6f] ++ [xb5; x59])
  = (sa ← encode85 [x86; x4f; xd2; x6f];
     sb ← encode85 [xb5; x59]; Some (sa +:+ sb))
  ∧ encode85 ([x86] ++ [x4f])
    ≠ (sa ← encode85 [x86]; sb ← encode85 [x4f]; Some (sa +:+ sb)).
Proof.
  split.
  - apply (encode85_app_aligned [x86; x4f; xd2; x6f] [xb5; x59]).
    reflexivity.
  - vm_compute. discriminate.
Defined.

(** * Further properties of the header parsers *)

Lemma Split_has_sep (s : string) (sep : ascii) :
  GoStrings.has_byte sep s = true →
  ∃ a b rest, GoStrings.Split s sep = a :: b :: rest.
Proof.
  unfold GoStrings.Split.
  induction s as [| c s IH]; intros H; [discriminate H |].
  cbn [GoStrings.has_byte] in H. cbn [GoStrings.pieces].
  destruct (bool_decide (c = sep)) eqn:Hc.
  - destruct (pieces_cons (λ c, bool_decide (c = sep)) s) as (p & ps & ->).
    eauto.
  - rewrite bool_decide_eq_false in Hc.
    rewrite bool_decide_eq_false_2 in H by congruence.
    destruct (IH H) as (a & b & rest & ->). eauto.
Qed.

(** What [parse_entry] does to the map does not depend on the map. *)
Lemma parse_entry_Some (entry : string) (m m' : gmap string string) :
  parse_entry entry m = Some m' →
  ∃ k v rest,
    GoStrings.Split entry "=" = k :: v :: rest ∧ m' = <[k := v]> m.
Proof.
  unfold parse_entry.
  destruct (GoStrings.Split entry "=") as [| k [| v rest]];
    cbn; intros H; try discriminate H.
  injection H as <-. eauto.
Qed.

Lemma parse_entry_Split (entry k v : string) (rest : list string)
    (m : gmap string string) :
  GoStrings.Split entry "=" = k :: v :: rest →
  parse_entry entry m = Some (<[k := v]> m).
Proof. intros H. unfold parse_entry. rewrite H. reflexivity. Qed.

Lemma parse_entry_has_equals (entry : string) (m : gmap string string) :
  GoStrings.has_byte "=" entry = true → is_Some (parse_entry entry m).
Proof.
  intros H. destruct (Split_has_sep entry "=" H) as (k & v & rest & Hs).
  rewrite (parse_entry_Split entry k v rest m Hs). eauto.
Qed.

Lemma for_range_parse_total (entries : list string) :
  ∀ m : gmap string string,
    Forall (λ e, GoStrings.has_byte "=" e = true) entries →
    is_Some (for_range entries parse_entry m).
Proof.
  induction entries as [| e entries IH]; intros m Hall; [cbn; eauto |].
  apply Forall_cons in Hall as [He Hall]. cbn [for_range].
  destruct (parse_entry_has_equals e m He) as [m' ->].
  cbn [mbind option_bind]. apply IH, Hall.
Qed.

(** X4. [parseKeyValues] panics exactly when the header has a non-empty
    entry, between semicolons, without [=]; on every other header value, the
    empty one too, it returns a map. *)
Theorem parseKeyValues_panics_iff (values : string) :
  parseKeyValues values = None
  ↔ ∃ entry : string,
      entry ∈ GoStrings.FieldsFunc values (λ c, bool_decide (c = ";"%char))
      ∧ GoStrings.has_byte "=" entry = false.
Proof.
  split.
  - intros Hnone. unfold parseKeyValues in Hnone.
    set (entries := GoStrings.FieldsFunc values _) in *.
    destruct (decide (Forall (λ e, GoStrings.has_byte "=" e = true) entries))
      as [Hall | Hnot].
    + destruct (for_range_parse_total entries ∅ Hall) as [m Hm].
      rewrite Hm in Hnone. discriminate Hnone.
    + apply not_Forall_Exists in Hnot; [| intros e; apply _].
      apply Exists_exists in Hnot as (entry & Hin & Hno).
      exists entry. split; [exact Hin |].
      cbn in Hno. destruct (GoStrings.has_byte "=" entry);
        [exfalso; apply Hno; reflexivity | reflexivity].
  - intros (entry & Hin & Hno).
    exact (parseKeyValues_malformed values entry Hin Hno).
Qed.

Lemma for_range_snoc {A S} (l : list A) (x : A) (body : A → S → option S)
    (s : S) :
  for_range (l ++ [x]) body s = for_range l body s ≫= body x.
Proof.
  rewrite for_range_app. destruct (for_range l body s) as [s' |];
    [| reflexivity].
  cbn [mbind option_bind for_range]. destruct (body x s'); reflexivity.
Qed.

(** Entries parsed into a map that has bindings already override them. *)
Lemma for_range_parse_union (entries : list string) :
  ∀ m r : gmap string string,
    for_range entries parse_entry ∅ = Some r →
    for_range entries parse_entry m = Some (r ∪ m).
Proof.
  induction entries as [| e entries IH] using rev_ind; intros m r H.
  - injection H as <-. cbn [for_range]. rewrite (left_id_L ∅ (∪)). reflexivity.
  - rewrite for_range_snoc in H |- *.
    destruct (for_range entries parse_entry ∅) as [r0 |] eqn:Hr0;
      [| discriminate H].
    cbn [mbind option_bind] in H.
    rewrite (IH m r0 eq_refl). cbn [mbind option_bind].
    apply parse_entry_Some in H as (k & v & rest & Hs & ->).
    rewrite (parse_entry_Split e k v rest _ Hs).
    rewrite insert_union_l. reflexivity.
Qed.

(** X5. Headers compose: when two header values parse, the value made of the
    first, a semicolon and the second parses to the union of the two maps,
    in which the entries of the second override those of the first. *)
Theorem parseKeyValues_append (a b : string) (ma mb : gmap string string) :
  parseKeyValues a = Some ma →
  parseKeyValues b = Some mb →
  parseKeyValues (a +:+ ";" +:+ b) = Some (mb ∪ ma).
Proof.
  unfold parseKeyValues. intros Ha Hb.
  change (a +:+ ";" +:+ b) with (a +:+ String ";" b).
  rewrite FieldsFunc_app_sep by reflexivity.
  rewrite for_range_app, Ha. cbn [mbind option_bind].
  apply for_range_parse_union, Hb.
Qed.

(** The second [dh] wins. *)
Lemma parseKeyValues_append_witness :
  parseKeyValues ("dh=AAAA;keyid=p256" +:+ ";" +:+ "dh=BBBB")
  = Some ({[ "dh" := "BBBB" ]} ∪ <[ "keyid" := "p256" ]> {[ "dh" := "AAAA" ]})
  ∧ ({[ "dh" := "BBBB" ]} ∪ <[ "keyid" := "p256" ]> {[ "dh" := "AAAA" ]}
       : gmap string string) !! "dh" = Some "BBBB".
Proof.
  split.
  - apply (parseKeyValues_append "dh=AAAA;keyid=p256" "dh=BBBB");
      vm_compute; reflexivity.
  - vm_compute. reflexivity.
Defined.

Lemma for_range_parse_origin (entries : list string) :
  ∀ (m0 m : gmap string string) (k v : string),
    for_range entries parse_entry m0 = Some m →
    m !! k = Some v →
    m0 !! k = Some v
    ∨ ∃ entry rest, entry ∈ entries
                    ∧ GoStrings.Split entry "=" = k :: v :: rest.
Proof.
  induction entries as [| e entries IH]; intros m0 m k v H Hk.
  - injection H as <-. left. exact Hk.
  - cbn [for_range] in H.
    destruct (parse_entry e m0) as [m1 |] eqn:He; [| discriminate H].
    cbn [mbind option_bind] in H.
    destruct (IH m1 m k v H Hk) as [H1 | (entry & rest & Hin & Hs)].
    + apply parse_entry_Some in He as (k' & v' & rest & Hs & ->).
      destruct (decide (k' = k)) as [-> | Hne].
      * rewrite lookup_insert_eq in H1. injection H1 as <-.
        right. exists e, rest. split; [apply elem_of_cons; left; reflexivity
                                      | exact Hs].
      * rewrite lookup_insert_ne in H1 by exact Hne. left. exact H1.
    + right. exists entry, rest.
      split; [apply elem_of_cons; right; exact Hin | exact Hs].
Qed.

(** X6. [parseKeyValues] invents nothing: every binding of the map it
    returns is the key and the value of an entry of the header, the texts
    before and after the first [=] of the entry. *)
Theorem parseKeyValues_origin (values k v : string)
    (m : gmap string string) :
  parseKeyValues values = Some m →
  m !! k = Some v →
  ∃ entry rest,
    entry ∈ GoStrings.FieldsFunc values (λ c, bool_decide (c = ";"%char))
    ∧ GoStrings.Split entry "=" = k :: v :: rest.
Proof.
  unfold parseKeyValues. intros H Hk.
  destruct (for_range_parse_origin _ _ _ k v H Hk) as [H0 | Hex];
    [| exact Hex].
  rewrite lookup_empty in H0. discriminate H0.
Qed.

Lemma parseKeyValues_origin_witness :
  ∃ entry rest,
    entry ∈ GoStrings.FieldsFunc "keyid=p256;dh=SGVsbG8="
              (λ c, bool_decide (c = ";"%char))
    ∧ GoStrings.Split entry "=" = "dh" :: "SGVsbG8" :: rest.
Proof.
  apply (parseKeyValues_origin "keyid=p256;dh=SGVsbG8=" "dh" "SGVsbG8"
           (<[ "dh" := "SGVsbG8" ]> {[ "keyid" := "p256" ]}));
    vm_compute; reflexivity.
Defined.

(** * Further properties of the handler *)

Lemma encodedValue_None (header : http.Header) (name key : string) :
  encodedValue header name key = None
  ↔ parseKeyValues (http.Get header name) = None.
Proof.
  rewrite encodedValue_cases.
  destruct (parseKeyValues (http.Get header name)) as [kv |];
    [| split; reflexivity].
  destruct (kv !! key) as [value |]; [| split; discriminate].
  destruct (base64.DecodeString value); split; discriminate.
Qed.

(** X7. The handler panics on exactly these requests: the path is accepted,
    the content encoding is [aesgcm], and either the [Crypto-Key] header
    makes [parseKeyValues] panic, or the [dh] value is fine and the
    [Encryption] header makes [parseKeyValues] panic.  No body and no other
    header makes it panic. *)
Theorem handler_panics_iff (request : Request) :
  let components := GoStrings.Split (URL_Path request) "/" in
  handler request = None
  ↔ (components !! 2%nat = Some "fcm"
     ∧ (∃ deviceToken, components !! 3%nat = Some deviceToken
                       ∧ deviceToken ≠ "")
     ∧ http.Get (Header request) "Content-Encoding" = "aesgcm"
     ∧ (parseKeyValues (http.Get (Header request) "Crypto-Key") = None
        ∨ ((∃ k, encodedValue (Header request) "Crypto-Key" "dh"
                 = Some (inl k))
           ∧ parseKeyValues (http.Get (Header request) "Encryption") = None))).
Proof.
  intros components. split.
  - intros Hnone.
    destruct (path_cases (URL_Path request))
      as [Hs | [[Hl Hw] | [[Hf Hm] | (tok & Hc2 & Hc3 & Htok)]]].
    + rewrite handler_short_path in Hnone by exact Hs. discriminate Hnone.
    + rewrite handler_wrong_environment in Hnone by assumption.
      discriminate Hnone.
    + rewrite handler_missing_token in Hnone by assumption.
      discriminate Hnone.
    + rewrite (handler_path_ok request tok Hc2 Hc3 Htok) in Hnone.
      split; [exact Hc2 |]. split; [exists tok; split; assumption |].
      destruct (decide _) as [Hce | _]; [| discriminate Hnone].
      split; [exact Hce |].
      destruct (encodedValue (Header request) "Crypto-Key" "dh")
        as [[k | e] |] eqn:Hk; cbn [mbind option_bind] in Hnone;
        [| discriminate Hnone | left; apply encodedValue_None in Hk; exact Hk].
      right. split; [exists k; reflexivity |].
      destruct (encodedValue (Header request) "Encryption" "salt")
        as [[s | e] |] eqn:Hs; cbn [mbind option_bind] in Hnone;
        [discriminate Hnone | discriminate Hnone |].
      apply encodedValue_None in Hs. exact Hs.
  - intros (Hc2 & (tok & Hc3 & Htok) & Hce & Hpanic).
    rewrite (handler_path_ok request tok Hc2 Hc3 Htok).
    rewrite decide_True by exact Hce.
    destruct Hpanic as [Hk | [[k Hk] Hs]].
    + rewrite (proj2 (encodedValue_None _ "Crypto-Key" "dh") Hk).
      reflexivity.
    + rewrite Hk. cbn [mbind option_bind].
      rewrite (proj2 (encodedValue_None _ "Encryption" "salt") Hs).
      reflexivity.
Qed.

(** X8. The handler puts a message on the channel exactly when the path is
    accepted, the content encoding is [aesgcm], and [encodedValue] succeeds
    on both crypto headers; the body and the headers [TTL], [Topic] and
    [Urgency] never make it refuse a request. *)
Theorem handler_queues_iff (request : Request) :
  let components := GoStrings.Split (URL_Path request) "/" in
  (∃ m, handler request = Some (Queued m))
  ↔ (components !! 2%nat = Some "fcm"
     ∧ (∃ deviceToken, components !! 3%nat = Some deviceToken
                       ∧ deviceToken ≠ "")
     ∧ http.Get (Header request) "Content-Encoding" = "aesgcm"
     ∧ (∃ k, encodedValue (Header request) "Crypto-Key" "dh" = Some (inl k))
     ∧ (∃ s, encodedValue (Header request) "Encryption" "salt"
             = Some (inl s))).
Proof.
  intros components. split.
  - intros [m Hq]. apply handler_queued_fields in Hq.
    destruct Hq as (k & s & Hc2 & Hc3 & Htok & Hce & Hk & Hs & _).
    split; [exact Hc2 |]. split; [exists (To m); split; assumption |].
    split; [exact Hce |]. split; [exists k; exact Hk | exists s; exact Hs].
  - intros (Hc2 & (tok & Hc3 & Htok) & Hce & [k Hk] & [s Hs]).
    rewrite (handler_path_ok request tok Hc2 Hc3 Htok).
    rewrite decide_True by exact Hce.
    rewrite Hk. cbn [mbind option_bind]. rewrite Hs. cbn [mbind option_bind].
    edestruct finish_fields as (m & -> & _). exists m. reflexivity.
Qed.

(** X9. The handler answers with the status 400 or 415 only, and with one of
    six messages: three for the path, two for the crypto headers, and one,
    with 415, for the content encoding. *)
Theorem handler_error_messages (request : Request) (code : Z) (msg : string) :
  handler request = Some (Error code msg) →
  (code = 400
   ∧ msg ∈ ["Invalid URL path"; "Invalid target environment";
            "Missing device token"; "Error retrieving public key";
            "Error retrieving salt"])
  ∨ (code = 415 ∧ msg = "Unsupported content encoding").
Proof.
  intros H.
  destruct (path_cases (URL_Path request))
    as [Hs | [[Hl Hw] | [[Hf Hm] | (tok & Hc2 & Hc3 & Htok)]]].
  - rewrite handler_short_path in H by exact Hs. injection H as <- <-.
    left. split; [reflexivity |]. apply elem_of_cons. left. reflexivity.
  - rewrite handler_wrong_environment in H by assumption.
    injection H as <- <-. left. split; [reflexivity |].
    do 1 (apply elem_of_cons; right). apply elem_of_cons. left. reflexivity.
  - rewrite handler_missing_token in H by assumption.
    injection H as <- <-. left. split; [reflexivity |].
    do 2 (apply elem_of_cons; right). apply elem_of_cons. left. reflexivity.
  - destruct (handler_path_ok_outcomes request tok Hc2 Hc3 Htok)
      as [Ho | [Ho | [Ho | [Ho | [m Ho]]]]];
      rewrite Ho in H; try discriminate H; injection H as <- <-.
    + right. split; reflexivity.
    + left. split; [reflexivity |].
      do 3 (apply elem_of_cons; right). apply elem_of_cons. left. reflexivity.
    + left. split; [reflexivity |].
      do 4 (apply elem_of_cons; right). apply elem_of_cons. left. reflexivity.
Qed.

Lemma handler_error_messages_witness :
  (415 = 400
   ∧ "Unsupported content encoding"
     ∈ ["Invalid URL path"; "Invalid target environment";
        "Missing device token"; "Error retrieving public key";
        "Error retrieving salt"])
  ∨ (415 = 415
     ∧ "Unsupported content encoding" = "Unsupported content encoding").
Proof.
  apply (handler_error_messages Examples.gzip). vm_compute. reflexivity.
Defined.

(** X10. A request without the [Crypto-Key] header, on an accepted path and
    with the content encoding [aesgcm], is answered with 400 and the message
    of the public key, whatever its [Encryption] header is; with a [dh]
    value that [encodedValue] accepts and without the [Encryption] header it
    is answered with 400 and the message of the salt. *)
Theorem handler_missing_crypto_header (request : Request)
    (deviceToken : string) :
  let components := GoStrings.Split (URL_Path request) "/" in
  components !! 2%nat = Some "fcm" →
  components !! 3%nat = Some deviceToken →
  deviceToken ≠ "" →
  http.Get (Header request) "Content-Encoding" = "aesgcm" →
  (Header request !! "Crypto-Key" = None →
   handler request = Some (Error 400 "Error retrieving public key"))
  ∧ ((∃ k, encodedValue (Header request) "Crypto-Key" "dh" = Some (inl k)) →
     Header request !! "Encryption" = None →
     handler request = Some (Error 400 "Error retrieving salt")).
Proof.
  intros components Hc2 Hc3 Htok Hce.
  rewrite (handler_path_ok request deviceToken Hc2 Hc3 Htok).
  rewrite decide_True by exact Hce.
  assert (Habs : ∀ name key,
            Header request !! http.CanonicalMIMEHeaderKey name = None →
            ∃ e, encodedValue (Header request) name key = Some (inr e)).
  { intros name key Hn. rewrite encodedValue_cases, Get_absent by exact Hn.
    change (parseKeyValues "") with (Some (∅ : gmap string string)).
    cbv beta iota. rewrite lookup_empty. eauto. }
  split.
  - intros Hn. destruct (Habs "Crypto-Key" "dh" Hn) as [e ->]. reflexivity.
  - intros [k Hk] Hn. rewrite Hk. cbn [mbind option_bind].
    destruct (Habs "Encryption" "salt" Hn) as [e ->]. reflexivity.
Qed.

Lemma handler_missing_crypto_header_witness :
  handler (Examples.request "/relay-to/fcm/ABC123"
             [("Content-Encoding", "aesgcm"); ("Encryption", "salt=AAAA")])
  = Some (Error 400 "Error retrieving public key")
  ∧ handler (Examples.request "/relay-to/fcm/ABC123"
               [("Content-Encoding", "aesgcm"); ("Crypto-Key", "dh=SGVsbG8")])
    = Some (Error 400 "Error retrieving salt").
Proof.
  split.
  - apply (handler_missing_crypto_header
             (Examples.request "/relay-to/fcm/ABC123"
                [("Content-Encoding", "aesgcm"); ("Encryption", "salt=AAAA")])
             "ABC123");
      vm_compute; try reflexivity; discriminate.
  - apply (handler_missing_crypto_header
             (Examples.request "/relay-to/fcm/ABC123"
                [("Content-Encoding", "aesgcm"); ("Crypto-Key", "dh=SGVsbG8")])
             "ABC123");
      try (vm_compute; reflexivity); try (vm_compute; discriminate).
    eexists. vm_compute. reflexivity.
Defined.

(** ** The fields of a message *)

Lemma finish_other_fields (request : Request) (message m : Message) :
  finish request message = Queued m →
  MutableContent m = MutableContent message
  ∧ ContentAvailable m = ContentAvailable message
  ∧ CollapseKey m
    = (let topic := http.Get (Header request) "Topic" in
       if decide (topic ≠ "") then topic else CollapseKey message).
Proof.
  unfold finish. intros H. injection H as <-. cbv zeta.
  repeat split;
    repeat (destruct (decide _)); try destruct (strconv.Atoi _);
    reflexivity.
Qed.

(** X11. In every message on the channel the collapse key is the value of
    the [Topic] header, the empty string when there is no such header, and
    the flags [MutableContent] and [ContentAvailable] are set. *)
Theorem handler_collapse_key (request : Request) (m : Message) :
  handler request = Some (Queued m) →
  CollapseKey m = http.Get (Header request) "Topic"
  ∧ MutableContent m = true
  ∧ ContentAvailable m = true.
Proof.
  intros Hq. apply handler_queued_inv in Hq.
  destruct Hq as (tok & k & s & _ & _ & _ & _ & _ & _ & Hfin).
  symmetry in Hfin. apply finish_other_fields in Hfin as (HM & HC & HK).
  rewrite HM, HC, HK. cbv zeta.
  repeat split.
  - destruct (decide (http.Get (Header request) "Topic" ≠ "")) as [_ | He].
    + reflexivity.
    + destruct (decide (4 < _)%nat); cbn;
        destruct (http.Get (Header request) "Topic");
        [reflexivity | exfalso; apply He; discriminate
        | reflexivity | exfalso; apply He; discriminate].
  - destruct (decide (4 < _)%nat); reflexivity.
  - destruct (decide (4 < _)%nat); reflexivity.
Qed.

Lemma handler_collapse_key_witness :
  ∃ m, handler (Examples.request "/relay-to/fcm/ABC123"
                  (Examples.aesgcm ++ [("Topic", "mentions")]))
       = Some (Queued m)
       ∧ CollapseKey m = "mentions".
Proof.
  eexists. split; [vm_compute; reflexivity |].
  apply (handler_collapse_key
           (Examples.request "/relay-to/fcm/ABC123"
              (Examples.aesgcm ++ [("Topic", "mentions")]))).
  vm_compute. reflexivity.
Defined.

(** ** The path, put together again *)

Lemma Join_cons_char (c : ascii) (p : string) (ps : list string)
    (sep : string) :
  GoStrings.Join (String c p :: ps) sep
  = String c (GoStrings.Join (p :: ps) sep).
Proof. destruct ps; reflexivity. Qed.

Lemma Join_cons (e e' : string) (es : list string) (sep : string) :
  GoStrings.Join (e :: e' :: es) sep
  = e +:+ sep +:+ GoStrings.Join (e' :: es) sep.
Proof. reflexivity. Qed.

(** [strings.Join] undoes [strings.Split]. *)
Lemma Join_Split (s : string) (sep : ascii) :
  GoStrings.Join (GoStrings.Split s sep) (String sep "") = s.
Proof.
  unfold GoStrings.Split. induction s as [| c s IH]; [reflexivity |].
  cbn [GoStrings.pieces].
  destruct (pieces_cons (λ c, bool_decide (c = sep)) s) as (p & ps & Hp).
  rewrite Hp in IH |- *.
  destruct (bool_decide (c = sep)) eqn:Hc.
  - apply bool_decide_eq_true_1 in Hc. subst c.
    rewrite Join_cons, IH. reflexivity.
  - rewrite Join_cons_char, IH. reflexivity.
Qed.

(** No piece of a split has the separator in it. *)
Lemma Split_pieces_no_sep (s : string) (sep : ascii) :
  Forall (λ p, GoStrings.has_byte sep p = false) (GoStrings.Split s sep).
Proof.
  unfold GoStrings.Split. induction s as [| c s IH].
  - repeat constructor.
  - cbn [GoStrings.pieces].
    destruct (pieces_cons (λ c, bool_decide (c = sep)) s) as (p & ps & Hp).
    rewrite Hp in IH |- *. apply Forall_cons in IH as [Hp0 Hps].
    destruct (bool_decide (c = sep)) eqn:Hc.
    + repeat constructor; assumption.
    + constructor; [| exact Hps].
      cbn [GoStrings.has_byte]. rewrite Hp0.
      rewrite bool_decide_eq_false in Hc.
      rewrite bool_decide_eq_false_2 by congruence. reflexivity.
Qed.

(** X12. The device token of a message on the channel is not empty and has
    no slash in it, and the path of the request is put together again from
    the message: two segments, the segment [fcm], the token and, when the
    message has the data key [x], a slash and the value of [x]. *)
Theorem handler_path_of_message (request : Request) (m : Message) :
  handler request = Some (Queued m) →
  To m ≠ ""
  ∧ GoStrings.has_byte "/" (To m) = false
  ∧ ∃ c0 c1 : string,
      URL_Path request
      = c0 +:+ "/" +:+ c1 +:+ "/fcm/" +:+ To m
        +:+ match Data m !! "x" with
            | Some x => "/" +:+ x
            | None => ""
            end.
Proof.
  intros Hq. apply handler_queued_fields in Hq.
  destruct Hq as (k & s & Hc2 & Hc3 & Htok & _ & _ & _ & HData & _).
  pose proof (Join_Split (URL_Path request) "/") as HJ.
  pose proof (Split_pieces_no_sep (URL_Path request) "/") as HF.
  set (components := GoStrings.Split (URL_Path request) "/") in *.
  split; [exact Htok |].
  split.
  - rewrite Forall_lookup in HF. exact (HF 3%nat _ Hc3).
  - destruct components as [| c0 [| c1 [| c2 [| c3 rest]]]];
      try discriminate Hc3.
    cbn in Hc2, Hc3. injection Hc2 as ->. injection Hc3 as Hc3.
    exists c0, c1. rewrite <- HJ, HData, <- Hc3.
    rewrite !Join_cons.
    destruct rest as [| r rest].
    + rewrite decide_False by (cbn [length]; lia). cbn [id].
      rewrite !lookup_insert_ne by discriminate.
      rewrite lookup_singleton_ne by discriminate.
      cbn [GoStrings.Join]. rewrite string_app_nil_r. reflexivity.
    + rewrite decide_True by (cbn [length]; lia).
      rewrite !lookup_insert_ne by discriminate.
      rewrite lookup_insert_eq.
      cbn [drop]. reflexivity.
Qed.

Lemma handler_path_of_message_witness :
  ∃ m, handler Examples.with_extra = Some (Queued m)
       ∧ To m ≠ ""
       ∧ GoStrings.has_byte "/" (To m) = false
       ∧ ∃ c0 c1 : string,
           URL_Path Examples.with_extra
           = c0 +:+ "/" +:+ c1 +:+ "/fcm/" +:+ To m
             +:+ match Data m !! "x" with
                 | Some x => "/" +:+ x
                 | None => ""
                 end.
Proof.
  eexists. split; [vm_compute; reflexivity |].
  exact (handler_path_of_message Examples.with_extra _
           ltac:(vm_compute; reflexivity)).
Defined.

(** ** What the handler reads *)

Lemma finish_set_Data (request request' : Request) (k v : string)
    (message : Message) :
  Header request' = Header request →
  finish request' (set_Data k v message)
  = match finish request message with
    | Queued m => Queued (set_Data k v m)
    | Error code msg => Error code msg
    end.
Proof.
  intros Hh. unfold finish. rewrite Hh. cbv zeta.
  repeat (destruct (decide _)); try destruct (strconv.Atoi _); reflexivity.
Qed.

Lemma set_Data_p (p p' s k tok : string) (g : Message → Message) :
  (g = id ∨ ∃ x, g = set_Data "x" x) →
  set_Data "p" p'
    (set_Data "s" s
       (set_Data "k" k
          (g {| To := tok; Data := {[ "p" := p ]};
                MutableContent := true; ContentAvailable := true;
                Notification_Title := title; TimeToLive := None;
                CollapseKey := ""; Priority := "" |})))
  = set_Data "s" s
      (set_Data "k" k
         (g {| To := tok; Data := {[ "p" := p' ]};
               MutableContent := true; ContentAvailable := true;
               Notification_Title := title; TimeToLive := None;
               CollapseKey := ""; Priority := "" |})).
Proof.
  intros Hg.
  destruct Hg as [-> | [x ->]]; unfold set_Data, id;
    cbn [To Data MutableContent ContentAvailable
         Notification_Title TimeToLive CollapseKey Priority];
    f_equal; apply map_eq; intros key;
    repeat rewrite lookup_insert; repeat rewrite lookup_singleton;
    repeat case_decide; congruence.
Qed.

(** X13. The body is no reason to refuse a request and no cause of a panic:
    the same request with another body has the same outcome, except that in
    a message on the channel the data key [p] holds the encoding of the
    other body. *)
Theorem handler_other_body (request : Request) (body : list byte) :
  handler {| URL_Path := URL_Path request; Header := Header request;
             Body := body |}
  = (p ← encode85 body;
     match handler request with
     | Some (Queued m) => Some (Queued (set_Data "p" p m))
     | outcome => outcome
     end).
Proof.
  rewrite encode85_reference. cbn [mbind option_bind].
  set (request' := {| URL_Path := URL_Path request; Header := Header request;
                      Body := body |}).
  destruct (path_cases (URL_Path request))
    as [Hs | [[Hl Hw] | [[Hf Hm] | (tok & Hc2 & Hc3 & Htok)]]].
  - rewrite (handler_short_path request Hs).
    exact (handler_short_path request' Hs).
  - rewrite (handler_wrong_environment request Hl Hw).
    exact (handler_wrong_environment request' Hl Hw).
  - rewrite (handler_missing_token request Hf Hm).
    exact (handler_missing_token request' Hf Hm).
  - rewrite (handler_path_ok request tok Hc2 Hc3 Htok).
    rewrite (handler_path_ok request' tok Hc2 Hc3 Htok).
    cbn [Header Body URL_Path request'].
    destruct (decide _) as [_ | _]; [| reflexivity].
    destruct (encodedValue (Header request) "Crypto-Key" "dh")
      as [[k | e] |]; cbn [mbind option_bind]; try reflexivity.
    destruct (encodedValue (Header request) "Encryption" "salt")
      as [[s | e] |]; cbn [mbind option_bind]; try reflexivity.
    f_equal.
    match goal with
    | |- context [finish request' (set_Data "s" s (set_Data "k" k (?g _)))] =>
        rewrite <- (set_Data_p (Reference.encode (Body request))
                      (Reference.encode body) s k tok g)
          by (destruct (decide (4 < _)%nat); eauto)
    end.
    rewrite (finish_set_Data request request') by reflexivity.
    match goal with
    | |- context [finish request ?msg] =>
        destruct (finish_fields request msg) as (m & Hm & _); rewrite Hm
    end.
    unfold finish in Hm. injection Hm as <-. reflexivity.
Qed.


(** * Further properties of the handler of the second version *)

(** What the second version does on a request whose path it accepts: the
    first assignment in [message.Data] panics. *)
Lemma messaging_handler_path_ok (request : Request) (deviceToken : string) :
  let components := GoStrings.Split (URL_Path request) "/" in
  components !! 2%nat = Some "fcm" →
  components !! 3%nat = Some deviceToken →
  deviceToken ≠ "" →
  Messaging.handler request
  = if decide (4 < length components)%nat then None
    else if decide (http.Get (Header request) "Content-Encoding" = "aesgcm")
    then
      r ← encodedValue (Header request) "Crypto-Key" "dh";
      match r with
      | inr _ => Some (Messaging.Error 400 "Error retrieving public key")
      | inl _ => None
      end
    else Some (Messaging.Error 415 "Unsupported content encoding").
Proof.
  intros components Hc2 Hc3 Htok.
  apply lookup_lt_Some in Hc3 as Hlen.
  unfold Messaging.handler. fold components.
  rewrite decide_False by lia.
  change 2 with (Z.of_nat 2). change 3 with (Z.of_nat 3).
  rewrite !index_lookup, Hc2. cbn [mbind option_bind].
  rewrite decide_False by (intros Hne; apply Hne; reflexivity).
  rewrite Hc3. cbn [mbind option_bind].
  rewrite decide_False by exact Htok.
  rewrite encode85_reference. cbn [mbind option_bind].
  destruct (decide (4 < length components)%nat) as [_ | _].
  - rewrite reslice_ok by lia. reflexivity.
  - cbn [mbind option_bind].
    destruct (decide _) as [_ | _]; [| reflexivity].
    destruct (encodedValue (Header request) "Crypto-Key" "dh")
      as [[k | e] |]; reflexivity.
Qed.

(** X14. The second version of the handler never reaches the send on the
    channel, and it answers nothing that the first version does not answer:
    a response of the second version, with its status and its message, is
    the response of the first version to the same request. *)
Theorem messaging_handler_answers (request : Request) :
  (∀ m, Messaging.handler request ≠ Some (Messaging.Send m))
  ∧ (∀ code msg,
       Messaging.handler request = Some (Messaging.Error code msg) →
       handler request = Some (Error code msg)).
Proof.
  split; [intros m; apply messaging_handler_never_sends |].
  intros code msg H.
  destruct (path_cases (URL_Path request))
    as [Hs | [[Hl Hw] | [[Hf Hm] | (tok & Hc2 & Hc3 & Htok)]]].
  - rewrite (handler_short_path request Hs).
    unfold Messaging.handler in H. rewrite decide_True in H by exact Hs.
    injection H as <- <-. reflexivity.
  - rewrite (handler_wrong_environment request Hl Hw).
    unfold Messaging.handler in H. rewrite decide_False in H by lia.
    change 2 with (Z.of_nat 2) in H. rewrite index_lookup in H.
    destruct (GoStrings.Split (URL_Path request) "/" !! 2%nat) as [c2 |] eqn:E;
      [| discriminate H].
    cbn [mbind option_bind] in H.
    rewrite decide_True in H by congruence.
    injection H as <- <-. reflexivity.
  - rewrite (handler_missing_token request Hf Hm).
    apply lookup_lt_Some in Hm as Hlen.
    unfold Messaging.handler in H. rewrite decide_False in H by lia.
    change 2 with (Z.of_nat 2) in H. change 3 with (Z.of_nat 3) in H.
    rewrite !index_lookup, Hf in H. cbn [mbind option_bind] in H.
    rewrite decide_False in H by (intros Hne; apply Hne; reflexivity).
    rewrite Hm in H. cbn [mbind option_bind] in H.
    rewrite decide_True in H by reflexivity.
    injection H as <- <-. reflexivity.
  - rewrite (messaging_handler_path_ok request tok Hc2 Hc3 Htok) in H.
    rewrite (handler_path_ok request tok Hc2 Hc3 Htok).
    destruct (decide (4 < _)%nat) as [_ | _]; [discriminate H |].
    destruct (decide _) as [_ | _].
    + destruct (encodedValue (Header request) "Crypto-Key" "dh")
        as [[k | e] |]; cbn [mbind option_bind] in H |- *;
        try discriminate H.
      injection H as <- <-. reflexivity.
    + injection H as <- <-. reflexivity.
Qed.

(** X15. The second version of the handler panics exactly when the path is
    accepted and either has more than four segments, or the content
    encoding is [aesgcm] and [encodedValue] does not return an error for the
    [dh] value of [Crypto-Key]: it panics on it, or it accepts it, and then
    the assignment [message.Data["k"]] panics. *)
Theorem messaging_handler_panics_iff (request : Request) :
  let components := GoStrings.Split (URL_Path request) "/" in
  Messaging.handler request = None
  ↔ (components !! 2%nat = Some "fcm"
     ∧ (∃ deviceToken, components !! 3%nat = Some deviceToken
                       ∧ deviceToken ≠ "")
     ∧ ((4 < length components)%nat
        ∨ (http.Get (Header request) "Content-Encoding" = "aesgcm"
           ∧ ∀ e, encodedValue (Header request) "Crypto-Key" "dh"
                  ≠ Some (inr e)))).
Proof.
  intros components. split.
  - intros Hnone.
    destruct (path_cases (URL_Path request))
      as [Hs | [[Hl Hw] | [[Hf Hm] | (tok & Hc2 & Hc3 & Htok)]]].
    + exfalso. unfold Messaging.handler in Hnone.
      rewrite decide_True in Hnone by exact Hs. discriminate Hnone.
    + exfalso. unfold Messaging.handler in Hnone.
      rewrite decide_False in Hnone by lia.
      change 2 with (Z.of_nat 2) in Hnone. rewrite index_lookup in Hnone.
      destruct (GoStrings.Split (URL_Path request) "/" !! 2%nat)
        as [c2 |] eqn:E; [| apply lookup_ge_None in E; lia].
      cbn [mbind option_bind] in Hnone.
      rewrite decide_True in Hnone by congruence. discriminate Hnone.
    + exfalso. apply lookup_lt_Some in Hm as Hlen.
      unfold Messaging.handler in Hnone.
      rewrite decide_False in Hnone by lia.
      change 2 with (Z.of_nat 2) in Hnone.
      change 3 with (Z.of_nat 3) in Hnone.
      rewrite !index_lookup, Hf in Hnone. cbn [mbind option_bind] in Hnone.
      rewrite decide_False in Hnone by (intros Hne; apply Hne; reflexivity).
      rewrite Hm in Hnone. cbn [mbind option_bind] in Hnone.
      rewrite decide_True in Hnone by reflexivity. discriminate Hnone.
    + rewrite (messaging_handler_path_ok request tok Hc2 Hc3 Htok) in Hnone.
      split; [exact Hc2 |]. split; [exists tok; split; assumption |].
      fold components in Hnone.
      destruct (decide (4 < length components)%nat) as [Hlen | _];
        [left; exact Hlen |].
      right.
      destruct (decide _) as [Hce | _]; [| discriminate Hnone].
      split; [exact Hce |].
      intros e He. rewrite He in Hnone. discriminate Hnone.
  - intros (Hc2 & (tok & Hc3 & Htok) & Hcase).
    rewrite (messaging_handler_path_ok request tok Hc2 Hc3 Htok).
    fold components.
    destruct (decide (4 < length components)%nat) as [_ | Hlen];
      [reflexivity |].
    destruct Hcase as [Hl | [Hce Hok]]; [contradiction |].
    rewrite decide_True by exact Hce.
    destruct (encodedValue (Header request) "Crypto-Key" "dh")
      as [[k | e] |]; try reflexivity.
    exfalso. apply (Hok e). reflexivity.
Qed.
